(** * Kamalbura/AQI: the build-and-fix pipeline (build-and-fix.py)

    A shallow embedding of the orchestration script and the properties its
    specification states about it.

    What the model keeps of a run:
    - the file tree (files with their text, directories with their entries),
      the process working directory, and the commands handed to
      [subprocess.run], in launch order;
    - the outcome of every external command, given by an arbitrary function
      [subprocess_run] of the command line, the directory it runs in, the file
      tree and the rest of the outside world ([Env]); a command may rewrite the
      file tree as it pleases;
    - Python exceptions, as the [Raise] results of a state-and-error monad;
      the exit status of the process is read off the result of [main].

    What it leaves out: console output ([print_success] and its siblings only
    print), the parsing of the command line (a run starts from the [Args]
    that [argparse] returns), file permissions, symbolic links and text
    encodings.  [__file__] is the absolute path of the script.  The text of a
    file is a sequence of characters with codes below 256; JSON numbers are
    the integers (a document holding a fraction or an exponent does not parse
    in the model).

    The file has two parts: the definitions (the Python operations the script
    relies on, the script itself function by function, the machines and
    project trees the properties are exercised on), then the proofs. *)

From Stdlib Require Import String Ascii List ZArith Lia Bool Arith.
From Stdlib Require Import DecimalString DecimalZ DecimalPos DecimalNat DecimalFacts.
Set Warnings "-register-all".
Import ListNotations.
Open Scope list_scope.
Open Scope string_scope.
Open Scope nat_scope.

(** ** Python text operations used by the script *)

Module PyStr.

(** The double quote, which no literal of this file spells out. *)
Definition dquote : ascii := ascii_of_nat 34.
Definition backslash : ascii := ascii_of_nat 92.

(** [quoted] turns every apostrophe into a double quote: literals are
    written with apostrophes where the modelled text has double quotes. *)
Fixpoint quoted (s : string) : string :=
  match s with
  | EmptyString => EmptyString
  | String c r => String (if Ascii.eqb c "'" then dquote else c) (quoted r)
  end.

(** [str.isspace] on one code point below 256. *)
Definition is_space (c : ascii) : bool :=
  let n := nat_of_ascii c in
  ((9 <=? n) && (n <=? 13)) || ((28 <=? n) && (n <=? 32))
  || (n =? 133) || (n =? 160).

Fixpoint lstrip (s : string) : string :=
  match s with
  | String c r => if is_space c then lstrip r else s
  | EmptyString => EmptyString
  end.

(** Drops trailing white space: a character is kept when it is not white
    space or when something is kept after it. *)
Fixpoint rstrip (s : string) : string :=
  match s with
  | EmptyString => EmptyString
  | String c r =>
      match rstrip r with
      | EmptyString => if is_space c then EmptyString else String c EmptyString
      | r' => String c r'
      end
  end.

(** [s.strip()] *)
Definition strip (s : string) : string := rstrip (lstrip s).

(** [s.lstrip('v')]: every leading letter v goes, not only the first. *)
Fixpoint lstrip_v (s : string) : string :=
  match s with
  | String c r => if Ascii.eqb c "v" then lstrip_v r else s
  | EmptyString => EmptyString
  end.

(** [s.split('.')[0]]: the text before the first dot (all of it if none). *)
Fixpoint before_dot (s : string) : string :=
  match s with
  | String c r => if Ascii.eqb c "." then EmptyString else String c (before_dot r)
  | EmptyString => EmptyString
  end.

Definition digit_val (c : ascii) : option Z :=
  let n := nat_of_ascii c in
  if (48 <=? n) && (n <=? 57) then Some (Z.of_nat (n - 48)) else None.

(** Digits of a base-10 [int] literal after the first one: a digit, or one
    underscore followed by a digit.  [acc] is the value read so far. *)
Fixpoint int_digits (acc : Z) (s : string) : option Z :=
  match s with
  | EmptyString => Some acc
  | String c r =>
      match digit_val c with
      | Some d => int_digits (10 * acc + d)%Z r
      | None =>
          if Ascii.eqb c "_" then
            match r with
            | String c' r' =>
                match digit_val c' with
                | Some d => int_digits (10 * acc + d)%Z r'
                | None => None
                end
            | EmptyString => None
            end
          else None
      end
  end.

Definition int_unsigned (s : string) : option Z :=
  match s with
  | String c r =>
      match digit_val c with
      | Some d => int_digits d r
      | None => None
      end
  | EmptyString => None
  end.

(** [int(s)]: surrounding white space, an optional sign, digits with single
    underscores between them.  [None] stands for [ValueError]. *)
Definition int (s : string) : option Z :=
  match strip s with
  | String c r =>
      if Ascii.eqb c "-" then option_map Z.opp (int_unsigned r)
      else if Ascii.eqb c "+" then int_unsigned r
      else int_unsigned (String c r)
  | EmptyString => None
  end.

End PyStr.

(** ** Insertion-ordered maps with text keys

    A Python [dict] (and the entries of a directory) as an association list
    in which no key is listed twice. *)

Module Dict.

Fixpoint dict_get {V : Type} (d : list (string * V)) (k : string) : option V :=
  match d with
  | [] => None
  | (k', v) :: d' => if String.eqb k' k then Some v else dict_get d' k
  end.

(** [d[k] = v]: an existing key keeps its place, a new key goes last. *)
Fixpoint dict_set {V : Type} (d : list (string * V)) (k : string) (v : V)
  : list (string * V) :=
  match d with
  | [] => [(k, v)]
  | (k', v') :: d' =>
      if String.eqb k' k then (k', v) :: d' else (k', v') :: dict_set d' k v
  end.

(** [del d[k]] *)
Fixpoint dict_del {V : Type} (d : list (string * V)) (k : string)
  : list (string * V) :=
  match d with
  | [] => []
  | (k', v') :: d' =>
      if String.eqb k' k then dict_del d' k else (k', v') :: dict_del d' k
  end.

(** [d.update(other)] *)
Definition dict_update {V : Type} (d other : list (string * V))
  : list (string * V) :=
  fold_left (fun acc kv => dict_set acc (fst kv) (snd kv)) other d.

Definition keys {V : Type} (d : list (string * V)) : list string := map fst d.

End Dict.

(** ** JSON documents, [json.load] and [json.dump(..., indent=2)] *)

Module Json.

Import PyStr Dict.

(** A Python value as [json.load] builds it; a [dict] keeps its keys in
    insertion order. *)
Inductive json : Type :=
| JNull
| JBool (b : bool)
| JInt (z : Z)
| JStr (s : string)
| JList (l : list json)
| JDict (d : list (string * json)).

(** *** Printing *)

Definition hex_digit (n : nat) : ascii :=
  if n <? 10 then ascii_of_nat (48 + n) else ascii_of_nat (87 + n).

(** One character of a string under [ensure_ascii=True]. *)
Definition escape_char (c : ascii) : string :=
  let n := nat_of_ascii c in
  if n =? 34 then String backslash (String dquote EmptyString)
  else if n =? 92 then String backslash (String backslash EmptyString)
  else if n =? 8 then String backslash "b"
  else if n =? 9 then String backslash "t"
  else if n =? 10 then String backslash "n"
  else if n =? 12 then String backslash "f"
  else if n =? 13 then String backslash "r"
  else if (32 <=? n) && (n <=? 126) then String c EmptyString
  else String backslash
         (String "u" (String "0" (String "0"
           (String (hex_digit (n / 16)) (String (hex_digit (n mod 16)) EmptyString))))).

Fixpoint escape (s : string) : string :=
  match s with
  | EmptyString => EmptyString
  | String c r => escape_char c ++ escape r
  end.

Definition print_string (s : string) : string :=
  String dquote (escape s ++ String dquote EmptyString).

Definition print_int (z : Z) : string := NilEmpty.string_of_int (Z.to_int z).

Fixpoint spaces (n : nat) : string :=
  match n with
  | O => EmptyString
  | S n' => String " " (spaces n')
  end.

Definition newline : ascii := ascii_of_nat 10.

(** A line break followed by the indentation of nesting level [lvl]. *)
Definition nl (lvl : nat) : string := String newline (spaces (2 * lvl)).

Definition print_member (pv : json -> string) (kv : string * json) : string :=
  print_string (fst kv) ++ ": " ++ pv (snd kv).

(** The items of a non-empty container, each on its own line. *)
Fixpoint print_items {A : Type} (pa : A -> string) (lvl : nat) (l : list A)
  : string :=
  match l with
  | [] => EmptyString
  | [x] => pa x
  | x :: r => pa x ++ "," ++ nl lvl ++ print_items pa lvl r
  end.

(** [json.dumps(v, indent=2)] at nesting level [lvl]. *)
Fixpoint print_value (lvl : nat) (v : json) : string :=
  match v with
  | JNull => "null"
  | JBool true => "true"
  | JBool false => "false"
  | JInt z => print_int z
  | JStr s => print_string s
  | JList [] => "[]"
  | JList l =>
      "[" ++ nl (S lvl) ++ print_items (print_value (S lvl)) (S lvl) l
          ++ nl lvl ++ "]"
  | JDict [] => "{}"
  | JDict d =>
      "{" ++ nl (S lvl)
          ++ print_items (print_member (print_value (S lvl))) (S lvl) d
          ++ nl lvl ++ "}"
  end.

Definition dumps (v : json) : string := print_value 0 v.

(** *** Parsing *)

Definition is_json_ws (c : ascii) : bool :=
  let n := nat_of_ascii c in
  (n =? 32) || (n =? 9) || (n =? 10) || (n =? 13).

Fixpoint skip_ws (s : string) : string :=
  match s with
  | String c r => if is_json_ws c then skip_ws r else s
  | EmptyString => EmptyString
  end.

Definition hex_val (c : ascii) : option nat :=
  let n := nat_of_ascii c in
  if (48 <=? n) && (n <=? 57) then Some (n - 48)
  else if (97 <=? n) && (n <=? 102) then Some (n - 87)
  else if (65 <=? n) && (n <=? 70) then Some (n - 55)
  else None.

(** The code point of a [\uXXXX] escape. *)
Definition hex4 (a b c d : ascii) : option nat :=
  match hex_val a, hex_val b, hex_val c, hex_val d with
  | Some x, Some y, Some z, Some w => Some (((x * 16 + y) * 16 + z) * 16 + w)
  | _, _, _, _ => None
  end.

Definition simple_escape (e : ascii) : option ascii :=
  let n := nat_of_ascii e in
  if n =? 34 then Some dquote
  else if n =? 92 then Some backslash
  else if n =? 47 then Some "/"%char
  else if n =? 98 then Some (ascii_of_nat 8)
  else if n =? 102 then Some (ascii_of_nat 12)
  else if n =? 110 then Some (ascii_of_nat 10)
  else if n =? 114 then Some (ascii_of_nat 13)
  else if n =? 116 then Some (ascii_of_nat 9)
  else None.

Definition cons_result (c : ascii) (r : option (string * string))
  : option (string * string) :=
  match r with
  | Some (s, rest) => Some (String c s, rest)
  | None => None
  end.

(** The text of a string literal after its opening quote, and what follows
    its closing quote.  Control characters are refused (strict mode); an
    escape above U+00FF is outside the model. *)
Fixpoint parse_string_body (s : string) : option (string * string) :=
  match s with
  | EmptyString => None
  | String c r =>
      if Ascii.eqb c dquote then Some (EmptyString, r)
      else if Ascii.eqb c backslash then
        match r with
        | EmptyString => None
        | String e r' =>
            if Ascii.eqb e "u" then
              match r' with
              | String h1 (String h2 (String h3 (String h4 r''))) =>
                  match hex4 h1 h2 h3 h4 with
                  | Some n =>
                      if n <? 256
                      then cons_result (ascii_of_nat n) (parse_string_body r'')
                      else None
                  | None => None
                  end
              | _ => None
              end
            else
              match simple_escape e with
              | Some x => cons_result x (parse_string_body r')
              | None => None
              end
        end
      else if nat_of_ascii c <? 32 then None
      else cons_result c (parse_string_body r)
  end.

Definition uint_digit (c : ascii) : option (Decimal.uint -> Decimal.uint) :=
  match nat_of_ascii c - 48 with
  | 0 => if nat_of_ascii c =? 48 then Some Decimal.D0 else None
  | 1 => Some Decimal.D1
  | 2 => Some Decimal.D2
  | 3 => Some Decimal.D3
  | 4 => Some Decimal.D4
  | 5 => Some Decimal.D5
  | 6 => Some Decimal.D6
  | 7 => Some Decimal.D7
  | 8 => Some Decimal.D8
  | 9 => Some Decimal.D9
  | _ => None
  end.

(** The longest run of decimal digits at the head of [s]. *)
Fixpoint parse_digits (s : string) : Decimal.uint * string :=
  match s with
  | EmptyString => (Decimal.Nil, EmptyString)
  | String c r =>
      match uint_digit c with
      | Some d => let (u, rest) := parse_digits r in (d u, rest)
      | None => (Decimal.Nil, s)
      end
  end.

(** The integer part of a number: a lone 0, or a digit 1-9 and more digits. *)
Definition parse_nat (s : string) : option (Decimal.uint * string) :=
  match s with
  | String c r =>
      if Ascii.eqb c "0" then Some (Decimal.D0 Decimal.Nil, r)
      else
        match uint_digit c with
        | Some _ => Some (parse_digits s)
        | None => None
        end
  | EmptyString => None
  end.

Definition parse_int (s : string) : option (Z * string) :=
  match s with
  | String c r =>
      if Ascii.eqb c "-" then
        match parse_nat r with
        | Some (u, rest) => Some (Z.of_int (Decimal.Neg u), rest)
        | None => None
        end
      else
        match parse_nat s with
        | Some (u, rest) => Some (Z.of_int (Decimal.Pos u), rest)
        | None => None
        end
  | EmptyString => None
  end.

(** [strip_prefix p s] is what follows [p] in [s], when [s] starts with it. *)
Fixpoint strip_prefix (p s : string) : option string :=
  match p with
  | EmptyString => Some s
  | String a p' =>
      match s with
      | String b s' => if Ascii.eqb a b then strip_prefix p' s' else None
      | EmptyString => None
      end
  end.

(** The recursive-descent decoder.  [fuel] bounds the number of values and
    container items still to be read; [loads] gives it more than the length
    of the text, which is enough ([loads_fuel_enough] below).  [parse_elements] and [parse_members] read the
    items of an array or object whose first item starts at the head of the
    text; [acc] holds the items read so far. *)
Fixpoint parse_value (fuel : nat) (s : string) : option (json * string) :=
  match fuel with
  | O => None
  | S fuel' =>
      match s with
      | EmptyString => None
      | String c r =>
          if Ascii.eqb c "{" then
            match skip_ws r with
            | String c1 r1 =>
                if Ascii.eqb c1 "}" then Some (JDict [], r1)
                else
                  match parse_members fuel' (String c1 r1) [] with
                  | Some (d, rest) => Some (JDict d, rest)
                  | None => None
                  end
            | EmptyString => None
            end
          else if Ascii.eqb c "[" then
            match skip_ws r with
            | String c1 r1 =>
                if Ascii.eqb c1 "]" then Some (JList [], r1)
                else
                  match parse_elements fuel' (String c1 r1) [] with
                  | Some (l, rest) => Some (JList l, rest)
                  | None => None
                  end
            | EmptyString => None
            end
          else if Ascii.eqb c dquote then
            match parse_string_body r with
            | Some (str, rest) => Some (JStr str, rest)
            | None => None
            end
          else if Ascii.eqb c "n" then
            option_map (fun rest => (JNull, rest)) (strip_prefix "ull" r)
          else if Ascii.eqb c "t" then
            option_map (fun rest => (JBool true, rest)) (strip_prefix "rue" r)
          else if Ascii.eqb c "f" then
            option_map (fun rest => (JBool false, rest)) (strip_prefix "alse" r)
          else
            match parse_int s with
            | Some (z, rest) => Some (JInt z, rest)
            | None => None
            end
      end
  end

with parse_elements (fuel : nat) (s : string) (acc : list json)
  : option (list json * string) :=
  match fuel with
  | O => None
  | S fuel' =>
      match parse_value fuel' s with
      | None => None
      | Some (v, rest) =>
          match skip_ws rest with
          | String c r =>
              if Ascii.eqb c "]" then Some ((acc ++ [v])%list, r)
              else if Ascii.eqb c "," then
                parse_elements fuel' (skip_ws r) (acc ++ [v])%list
              else None
          | EmptyString => None
          end
      end
  end

with parse_members (fuel : nat) (s : string) (acc : list (string * json))
  : option (list (string * json) * string) :=
  match fuel with
  | O => None
  | S fuel' =>
      match s with
      | String q r =>
          if Ascii.eqb q dquote then
            match parse_string_body r with
            | None => None
            | Some (k, rest) =>
                match skip_ws rest with
                | String c1 r1 =>
                    if Ascii.eqb c1 ":" then
                      match parse_value fuel' (skip_ws r1) with
                      | None => None
                      | Some (v, rest2) =>
                          match skip_ws rest2 with
                          | String c2 r2 =>
                              if Ascii.eqb c2 "}" then Some (dict_set acc k v, r2)
                              else if Ascii.eqb c2 "," then
                                parse_members fuel' (skip_ws r2) (dict_set acc k v)
                              else None
                          | EmptyString => None
                          end
                      end
                    else None
                | EmptyString => None
                end
            end
          else None
      | EmptyString => None
      end
  end.

(** [json.loads]: one value, white space allowed around it, nothing else.
    [None] stands for a decoding error. *)
Definition loads (s : string) : option json :=
  match parse_value (S (String.length s)) (skip_ws s) with
  | Some (v, rest) =>
      match skip_ws rest with
      | EmptyString => Some v
      | _ => None
      end
  | None => None
  end.

(** *** Notions the proofs about the codec use *)











End Json.


(** ** The file tree *)

Module Fs.

Import Dict.

(** A path is its list of components; [Path("frontend/dist")] is
    [["frontend"; "dist"]]. *)
Definition path : Type := list string.

Inductive node : Type :=
| File (data : string)
| Dir (entries : list (string * node)).

Fixpoint lookup (p : path) (n : node) : option node :=
  match p with
  | [] => Some n
  | c :: p' =>
      match n with
      | Dir es =>
          match dict_get es c with
          | Some child => lookup p' child
          | None => None
          end
      | File _ => None
      end
  end.

(** [put p (Some x) n] places [x] at [p], [put p None n] removes what is at
    [p]; [None] when the directory that should hold the last component is not
    there. *)
Fixpoint put (p : path) (new : option node) (n : node) : option node :=
  match p with
  | [] => new
  | c :: p' =>
      match n with
      | File _ => None
      | Dir es =>
          match p' with
          | [] =>
              Some (Dir (match new with
                         | Some x => dict_set es c x
                         | None => dict_del es c
                         end))
          | _ :: _ =>
              match dict_get es c with
              | Some child =>
                  match put p' new child with
                  | Some child' => Some (Dir (dict_set es c child'))
                  | None => None
                  end
              | None => None
              end
          end
      end
  end.

Definition is_dir (o : option node) : bool :=
  match o with
  | Some (Dir _) => true
  | _ => false
  end.

Definition is_some {A : Type} (o : option A) : bool :=
  match o with
  | Some _ => true
  | None => false
  end.

End Fs.

(** ** Outcomes, exceptions and the outside world *)

Import PyStr Dict Json Fs.

(** [subprocess.CompletedProcess] *)
Record CompletedProcess : Type := {
  returncode : Z;
  stdout : string;
  stderr : string
}.

(** What [subprocess.run(..., timeout=300)] does: it returns, it raises
    [TimeoutExpired], or it raises something else, whose text is [text]. *)
Inductive RunOutcome : Type :=
| Completed (r : CompletedProcess)
| TimedOut
| LaunchFailed (text : string).

(** The arguments [run_command] was called with. *)
Record Invocation : Type := {
  command : string;
  cwd_arg : option path;
  capture_output : bool
}.

(** The exceptions the script can meet. *)
Inductive exn : Type :=
| SystemExit (code : Z)
| ValueError
| AttributeError
| JSONDecodeError
| FileNotFoundError
| IsADirectoryError
| NotADirectoryError
| FileExistsError.

(** [except Exception] catches all of them but [SystemExit]. *)
Definition is_Exception (e : exn) : bool :=
  match e with
  | SystemExit _ => false
  | _ => true
  end.

Definition is_OSError (e : exn) : bool :=
  match e with
  | FileNotFoundError | IsADirectoryError | NotADirectoryError
  | FileExistsError => true
  | _ => false
  end.

Inductive Result (A : Type) : Type :=
| Ret (a : A)
| Raise (e : exn).

Arguments Ret {A} a.
Arguments Raise {A} e.

(** The tools the script calls and the clock it reads.  [subprocess_run
    command dir capture timeout tree e] is the run of [command] in the
    directory [dir] (absolute): its outcome, the file tree it leaves and the
    new state of the rest of the world. *)
Class Outside : Type := {
  Env : Type;
  subprocess_run :
    string -> path -> bool -> Z -> node -> Env -> RunOutcome * node * Env;
  strftime_now : Env -> string
}.

Section Pipeline.

Context {O : Outside}.

Record World : Type := {
  fs : node;
  cwd : path;
  env : Env;
  launched : list Invocation
}.

(** *** The state-and-error monad *)

Definition M (A : Type) : Type := World -> Result A * World.

Definition ret {A : Type} (a : A) : M A := fun w => (Ret a, w).

Definition raise {A : Type} (e : exn) : M A := fun w => (Raise e, w).

Definition bind {A B : Type} (m : M A) (k : A -> M B) : M B :=
  fun w =>
    match m w with
    | (Ret a, w') => k a w'
    | (Raise e, w') => (Raise e, w')
    end.

(** [try: m  except Exception: handler]; what [m] did before raising stays
    done. *)
Definition try_except {A : Type} (m : M A) (handler : exn -> M A) : M A :=
  fun w =>
    match m w with
    | (Raise e, w') =>
        if is_Exception e then handler e w' else (Raise e, w')
    | r => r
    end.

Definition lift {A : Type} (r : Result A) : M A := fun w => (r, w).

End Pipeline.

Declare Scope monad_scope.
Delimit Scope monad_scope with monad.
Notation "x <- m ;; k" := (bind m (fun x => k))
  (at level 61, m at next level, right associativity) : monad_scope.
Notation "m ;;; k" := (bind m (fun _ => k))
  (at level 61, right associativity) : monad_scope.
Open Scope monad_scope.

Section Script.

Context {O : Outside}.

(** *** File operations *)

Definition resolve (w : World) (p : path) : path := (cwd w ++ p)%list.

(** The error of a path that does not resolve: a file met on the way, or a
    missing entry. *)
Fixpoint walk_error (p : path) (n : node) : exn :=
  match n with
  | File _ => NotADirectoryError
  | Dir es =>
      match p with
      | [] => FileNotFoundError
      | c :: p' =>
          match dict_get es c with
          | Some child => walk_error p' child
          | None => FileNotFoundError
          end
      end
  end.

Definition with_fs (w : World) (tree : node) : World :=
  {| fs := tree; cwd := cwd w; env := env w; launched := launched w |}.

(** The same world, entered from another directory. *)
Definition with_cwd (w : World) (dir : path) : World :=
  {| fs := fs w; cwd := dir; env := env w; launched := launched w |}.

(** [Path(p).exists()] *)
Definition exists_in (w : World) (p : path) : bool :=
  is_some (lookup (resolve w p) (fs w)).

Definition path_exists (p : path) : M bool :=
  fun w => (Ret (exists_in w p), w).

(** The text of the file at [p], when a file is there. *)
Definition file_text (w : World) (p : path) : option string :=
  match lookup (resolve w p) (fs w) with
  | Some (File data) => Some data
  | _ => None
  end.

(** [open(p, 'r')] and reading all of it *)
Definition read_text (p : path) : M string :=
  fun w =>
    match lookup (resolve w p) (fs w) with
    | Some (File data) => (Ret data, w)
    | Some (Dir _) => (Raise IsADirectoryError, w)
    | None => (Raise (walk_error (resolve w p) (fs w)), w)
    end.

(** [open(p, 'w')] and writing [data] *)
Definition write_text (p : path) (data : string) : M unit :=
  fun w =>
    match lookup (resolve w p) (fs w) with
    | Some (Dir _) => (Raise IsADirectoryError, w)
    | _ =>
        match put (resolve w p) (Some (File data)) (fs w) with
        | Some tree => (Ret tt, with_fs w tree)
        | None => (Raise (walk_error (resolve w p) (fs w)), w)
        end
    end.

(** [shutil.rmtree(p)] *)
Definition rmtree (p : path) : M unit :=
  fun w =>
    match lookup (resolve w p) (fs w) with
    | Some (Dir _) =>
        match put (resolve w p) None (fs w) with
        | Some tree => (Ret tt, with_fs w tree)
        | None => (Raise FileNotFoundError, w)
        end
    | Some (File _) => (Raise NotADirectoryError, w)
    | None => (Raise (walk_error (resolve w p) (fs w)), w)
    end.

(** [shutil.copytree(src, dst)]: [src] is listed first, then [dst] is made,
    which fails when it is already there. *)
Definition copytree (src dst : path) : M unit :=
  fun w =>
    match lookup (resolve w src) (fs w) with
    | Some (Dir es) =>
        match lookup (resolve w dst) (fs w) with
        | Some _ => (Raise FileExistsError, w)
        | None =>
            match put (resolve w dst) (Some (Dir es)) (fs w) with
            | Some tree => (Ret tt, with_fs w tree)
            | None => (Raise (walk_error (resolve w dst) (fs w)), w)
            end
        end
    | Some (File _) => (Raise NotADirectoryError, w)
    | None => (Raise (walk_error (resolve w src) (fs w)), w)
    end.

(** [shutil.copy(src, dst)]: into [dst] when it is a directory. *)
Definition copy (src dst : path) : M unit :=
  fun w =>
    let target :=
      if is_dir (lookup (resolve w dst) (fs w))
      then (dst ++ [last src EmptyString])%list else dst in
    (data <- read_text src ;; write_text target data) w.

(** [os.chdir(p)] for an absolute [p] *)
Definition chdir (p : path) : M unit :=
  fun w =>
    match lookup p (fs w) with
    | Some (Dir _) => (Ret tt, with_cwd w p)
    | Some (File _) => (Raise NotADirectoryError, w)
    | None => (Raise (walk_error p (fs w)), w)
    end.

(** [datetime.now().strftime('%Y-%m-%d %H:%M:%S')] *)
Definition now : M string := fun w => (Ret (strftime_now (env w)), w).

(** [sys.exit(code)] *)
Definition sys_exit {A : Type} (code : Z) : M A := raise (SystemExit code).

(** *** [run_command] (lines 41-58) *)

Definition timeout : Z := 300.

Definition invocation (command : string) (cwd_arg : option path)
    (capture_output : bool) : Invocation :=
  {| command := command; cwd_arg := cwd_arg; capture_output := capture_output |}.

(** The call of [subprocess.run] and the two [except] clauses: both return
    [None]; the message each prints is not part of the returned value. *)
Definition run_command (command : string) (cwd_arg : option path)
    (capture_output : bool) : M (option CompletedProcess) :=
  fun w =>
    let dir := match cwd_arg with
               | Some d => resolve w d
               | None => cwd w
               end in
    let '(outcome, tree, e) :=
      subprocess_run command dir capture_output timeout (fs w) (env w) in
    let w' := {| fs := tree; cwd := cwd w; env := e;
                 launched := (launched w ++
                   [invocation command cwd_arg capture_output])%list |} in
    match outcome with
    | Completed r => (Ret (Some r), w')
    | TimedOut => (Ret None, w')
    | LaunchFailed _ => (Ret None, w')
    end.

(** [result and result.returncode == 0] *)
Definition succeeded (result : option CompletedProcess) : bool :=
  match result with
  | Some r => (returncode r =? 0)%Z
  | None => false
  end.

(** [result.stdout.strip()] of a result that is there *)
Definition stdout_stripped (result : option CompletedProcess) : string :=
  match result with
  | Some r => strip (stdout r)
  | None => EmptyString
  end.

(** *** [check_system_requirements] (lines 60-87) *)

(** [int(node_version.lstrip('v').split('.')[0])] *)
Definition major_of (node_version : string) : option Z :=
  PyStr.int (before_dot (lstrip_v node_version)).

(** The probe outcomes on which the primary tool is absent or too old. *)
Definition node_unusable (outcome : RunOutcome) : bool :=
  match outcome with
  | Completed r =>
      if (returncode r =? 0)%Z then
        match major_of (strip (stdout r)) with
        | Some major_version => (major_version <? 16)%Z
        | None => false
        end
      else true
  | TimedOut => true
  | LaunchFailed _ => true
  end.

Definition check_system_requirements : M bool :=
  result <- run_command "node --version" None true ;;
  if succeeded result then
    let node_version := stdout_stripped result in
    match major_of node_version with
    | None => raise ValueError
    | Some major_version =>
        if (16 <=? major_version)%Z then
          result <- run_command "npm --version" None true ;;
          if succeeded result then ret true else ret false
        else ret false
    end
  else ret false.

(** *** [install_dependencies] (lines 89-115) *)

Definition frontend_path : path := ["frontend"].

Definition install_dependencies (skip_install : bool) : M bool :=
  if skip_install then ret true
  else
    result <- run_command "npm install" None false ;;
    if succeeded result then
      e <- path_exists frontend_path ;;
      if e then
        result <- run_command "npm install" (Some frontend_path) false ;;
        if succeeded result then ret true else ret false
      else ret true
    else ret false.

(** *** [fix_typescript_config] (lines 117-152) *)

Definition tsconfig_path : path := ["frontend"; "tsconfig.json"].

Definition overrides : list (string * json) :=
  [ ("jsx", JStr "react-jsx");
    ("moduleResolution", JStr "node");
    ("allowSyntheticDefaultImports", JBool true);
    ("esModuleInterop", JBool true);
    ("skipLibCheck", JBool true);
    ("strict", JBool false);
    ("noImplicitAny", JBool false);
    ("strictNullChecks", JBool false) ].

(** Lines 128-140.  Only a [dict] has [get] and [update]: anything else
    raises [AttributeError]. *)
Definition patch (tsconfig : json) : Result json :=
  match tsconfig with
  | JDict d =>
      let compiler_options :=
        match dict_get d "compilerOptions" with
        | Some v => v
        | None => JDict []
        end in
      match compiler_options with
      | JDict co =>
          Ret (JDict (dict_set d "compilerOptions"
                        (JDict (dict_update co overrides))))
      | _ => Raise AttributeError
      end
  | _ => Raise AttributeError
  end.

(** [json.load(f)] *)
Definition json_load (text : string) : M json :=
  match loads text with
  | Some v => ret v
  | None => raise JSONDecodeError
  end.

Definition fix_typescript_config : M bool :=
  e <- path_exists tsconfig_path ;;
  if e then
    try_except
      (text <- read_text tsconfig_path ;;
       tsconfig <- json_load text ;;
       tsconfig' <- lift (patch tsconfig) ;;
       write_text tsconfig_path (dumps tsconfig') ;;;
       ret true)
      (fun _ => ret false)
  else ret true.

(** *** [fix_react_components] (lines 154-174) *)

Definition component_files : list path :=
  [ ["frontend"; "src"; "main.tsx"];
    ["frontend"; "src"; "App.tsx"];
    ["frontend"; "src"; "context"; "AirQualityContext.tsx"];
    ["frontend"; "src"; "components"; "LoadingSpinner.tsx"];
    ["frontend"; "src"; "components"; "ErrorBoundary.tsx"];
    ["frontend"; "src"; "components"; "AQICard.tsx"];
    ["frontend"; "src"; "components"; "WeatherCard.tsx"];
    ["frontend"; "src"; "components"; "AlertsPanel.tsx"];
    ["frontend"; "src"; "components"; "TrendChart.tsx"] ].

(** [[f for f in files if Path(f).exists()]] *)
Fixpoint existing (files : list path) : M (list path) :=
  match files with
  | [] => ret []
  | f :: r =>
      e <- path_exists f ;;
      l <- existing r ;;
      ret (if e then f :: l else l)
  end.

Definition fix_react_components : M bool :=
  existing_files <- existing component_files ;;
  ret true.

(** *** [build_frontend] (lines 176-226) *)

Definition dist_path : path := (frontend_path ++ ["dist"])%list.
Definition public_path : path := ["public"].

Definition build_frontend : M bool :=
  e <- path_exists frontend_path ;;
  if negb e then ret false
  else
    result <- run_command "npm run type-check" (Some frontend_path) true ;;
    result <- run_command "npm run build" (Some frontend_path) false ;;
    if succeeded result then
      d <- path_exists dist_path ;;
      if d then
        p <- path_exists public_path ;;
        (if p then rmtree public_path else ret tt) ;;;
        copytree dist_path public_path ;;;
        ret true
      else ret false
    else
      run_command "npm install @types/node --save-dev" (Some frontend_path) true ;;;
      result <- run_command "npm run build" (Some frontend_path) false ;;
      if succeeded result then ret true else ret false.

(** *** [test_backend] (lines 228-241) *)

Definition env_path : path := [".env"].
Definition env_example_path : path := [".env.example"].

Definition test_backend : M bool :=
  e <- path_exists env_path ;;
  x <- (if negb e then path_exists env_example_path else ret false) ;;
  (if negb e && x then copy env_example_path env_path else ret tt) ;;;
  ret true.

(** *** [generate_report] (lines 243-303) *)

Definition LF : string := String newline EmptyString.

(** Each line followed by a line break. *)
Fixpoint unlines (l : list string) : string :=
  match l with
  | [] => EmptyString
  | x :: r => x ++ LF ++ unlines r
  end.

Definition components_status (node_modules frontend_node_modules dist
    public dotenv : bool) : list (string * string) :=
  [ ("Backend Dependencies",
     if node_modules then "✅ Installed" else "❌ Missing");
    ("Frontend Dependencies",
     if frontend_node_modules then "✅ Installed" else "❌ Missing");
    ("Frontend Build", if dist then "✅ Built" else "❌ Failed");
    ("Public Assets", if public then "✅ Deployed" else "❌ Missing");
    ("Environment Config", if dotenv then "✅ Present" else "❌ Missing") ].

Definition report_head (date node_version npm_version : string) : string :=
  unlines
    [ EmptyString;
      "🎯 BUILD REPORT";
      "===============";
      "Date: " ++ date;
      "Node.js Version: " ++ node_version;
      "npm Version: " ++ npm_version;
      EmptyString;
      "COMPONENTS STATUS:" ].

Definition report_ready : string :=
  unlines
    [ "✅ Application is ready to run!";
      "   ";
      "   To start the application:";
      "   1. Configure your .env file with API keys";
      "   2. Run: python start.py (or node start.js)";
      "   3. Or run: npm start";
      "   4. Open: http://localhost:3000" ].

Definition report_incomplete : string :=
  unlines
    [ "❌ Build incomplete. Please:";
      "   1. Check error messages above";
      "   2. Fix TypeScript/React issues";
      "   3. Run this script again";
      "   4. Or contact support with the error details" ].

Definition report_path : path := ["build-report.txt"].

Definition generate_report : M bool :=
  node_result <- run_command "node --version" None true ;;
  npm_result <- run_command "npm --version" None true ;;
  let node_version :=
    if succeeded node_result then stdout_stripped node_result else "Unknown" in
  let npm_version :=
    if succeeded npm_result then stdout_stripped npm_result else "Unknown" in
  e1 <- path_exists ["node_modules"] ;;
  e2 <- path_exists ["frontend"; "node_modules"] ;;
  e3 <- path_exists ["frontend"; "dist"] ;;
  e4 <- path_exists ["public"] ;;
  e5 <- path_exists [".env"] ;;
  date <- now ;;
  let report := report_head date node_version npm_version in
  let report :=
    fold_left
      (fun acc cs => acc ++ "- " ++ fst cs ++ ": " ++ snd cs ++ LF)
      (components_status e1 e2 e3 e4 e5) report in
  let report := report ++ LF ++ "NEXT STEPS:" ++ LF in
  d <- path_exists ["frontend"; "dist"] ;;
  let report := report ++ (if d then report_ready else report_incomplete) in
  write_text report_path report ;;;
  path_exists ["frontend"; "dist"].

(** *** [main] (lines 305-362) *)

(** What [argparse] leaves in [args]. *)
Record Args : Type := {
  skip_install : bool;
  verbose : bool;
  fix_only : bool
}.

(** Lines 327-352, from [success = True] to [test_backend]; the value
    returned is the local [success]. *)
Definition run_stages (args : Args) : M bool :=
  let success := true in
  ok <- check_system_requirements ;;
  if negb ok then sys_exit 1
  else
    ok <- install_dependencies (skip_install args) ;;
    let success := if negb ok then false else success in
    ok <- fix_typescript_config ;;
    let success := if negb ok then false else success in
    ok <- fix_react_components ;;
    let success := if negb ok then false else success in
    ok <- (if negb (fix_only args) then build_frontend else ret true) ;;
    let success := if negb ok then false else success in
    ok <- test_backend ;;
    let success := if negb ok then false else success in
    ret success.

(** Lines 323-352: [os.chdir(Path(__file__).parent)], then the stages.
    [script] is [__file__], the absolute path of the script. *)
Definition main_stages (script : path) (args : Args) : M bool :=
  let script_dir := removelast script in
  chdir script_dir ;;;
  run_stages args.

(** Lines 354-362: [success] is not read. *)
Definition main_report (success : bool) : M unit :=
  build_success <- generate_report ;;
  if build_success then sys_exit 0 else sys_exit 1.

Definition main (script : path) (args : Args) : M unit :=
  success <- main_stages script args ;;
  main_report success.

(** [m] leaves the working directory where it was. *)
Definition keeps_cwd {A : Type} (m : M A) : Prop :=
  forall w, cwd (snd (m w)) = cwd w.

(** [m] raises nothing but exceptions that satisfy [P]. *)
Definition raises_only {A : Type} (P : exn -> bool) (m : M A) : Prop :=
  forall w e, fst (m w) = Raise e -> P e = true.

Definition no_exn (e : exn) : bool := false.

Definition is_ValueError (e : exn) : bool :=
  match e with
  | ValueError => true
  | _ => false
  end.

(** The exit status of the process: that of [sys.exit], 1 for an exception
    nobody caught, 0 when the script runs off its end. *)
Definition exit_code {A : Type} (r : Result A) : Z :=
  match r with
  | Ret _ => 0
  | Raise (SystemExit code) => code
  | Raise _ => 1
  end.

End Script.

(** ** Concrete machines and project trees

    The inputs at which the properties below are exercised. *)

Module Scenario.

Definition completed (rc : Z) (out : string) : RunOutcome :=
  Completed {| returncode := rc; stdout := out; stderr := EmptyString |}.

Definition or_keep (o : option node) (tree : node) : node :=
  match o with
  | Some t => t
  | None => tree
  end.

(** A machine on which [node --version] prints [node_out] and npm is 9.6.7.
    Nothing starts in a directory that is not there; [sleep 400] outlives
    the time bound; the build fails until [node_modules/@types] is there,
    which installing [@types/node] provides; a build that succeeds writes
    [dist] when [emit] is set. *)
Definition run (node_out : string) (emit : bool) (command : string)
    (dir : path) (capture : bool) (limit : Z) (tree : node) (e : unit)
  : RunOutcome * node * unit :=
  if negb (is_dir (lookup dir tree)) then
    (LaunchFailed "[Errno 2] No such file or directory", tree, e)
  else if (command =? "sleep 400")%string then
    (if (limit <? 400)%Z then TimedOut else completed 0 EmptyString, tree, e)
  else if (command =? "node --version")%string then
    (completed 0 node_out, tree, e)
  else if (command =? "npm --version")%string then
    (completed 0 ("9.6.7" ++ String newline EmptyString), tree, e)
  else if (command =? "npm install @types/node --save-dev")%string then
    (completed 0 EmptyString,
     or_keep (put (dir ++ ["node_modules"; "@types"])%list
                (Some (Dir [("node", Dir [])])) tree) tree, e)
  else if (command =? "npm run build")%string then
    if is_some (lookup (dir ++ ["node_modules"; "@types"])%list tree) then
      (completed 0 EmptyString,
       if emit
       then or_keep (put (dir ++ ["dist"])%list
                       (Some (Dir [("index.html", File "fresh build")])) tree) tree
       else tree, e)
    else (completed 1 EmptyString, tree, e)
  else (completed 0 EmptyString, tree, e).

Definition machine (node_out : string) (emit : bool) : Outside :=
  {| Env := unit;
     subprocess_run := run node_out emit;
     strftime_now := fun _ => "2024-05-01 12:00:00" |}.

Definition node18 : string := "v18.17.0" ++ String newline EmptyString.
Definition node14 : string := "v14.21.3" ++ String newline EmptyString.

(** The script lives in [/app]. *)
Definition script : path := ["app"; "build-and-fix.py"].

Definition project (frontend_entries root_entries : list (string * node)) : node :=
  Dir [("app", Dir (("build-and-fix.py", File EmptyString)
                    :: ("frontend", Dir frontend_entries)
                    :: root_entries))].

Definition start (O : Outside) (e : @Env O) (dir : path) (tree : node) : @World O :=
  {| fs := tree; cwd := dir; env := e; launched := [] |}.

Definition stale_public : string * node :=
  ("public", Dir [("stale.js", File "old bundle")]).

(** The first build fails, the retry after the install succeeds. *)
Definition retry_world : @World (machine node18 true) :=
  start (machine node18 true) tt ["app"]
    (project [("node_modules", Dir [])] [stale_public]).

(** The build command exits 0 and writes nothing. *)
Definition silent_build_world : @World (machine node18 false) :=
  start (machine node18 false) tt ["app"]
    (project [("node_modules", Dir [("@types", Dir [])])] [stale_public]).

Definition built : string * node := ("dist", Dir [("index.html", File "built")]).

(** A built project, run from the root directory. *)
Definition built_world : @World (machine node18 true) :=
  start (machine node18 true) tt [] (project [built] []).

(** The same, where [build-report.txt] is a directory. *)
Definition blocked_report_world : @World (machine node18 true) :=
  start (machine node18 true) tt []
    (project [built] [("build-report.txt", Dir [])]).

Definition quick : Args :=
  {| skip_install := true; verbose := false; fix_only := true |}.

Definition full : Args :=
  {| skip_install := false; verbose := false; fix_only := false |}.

Definition tsconfig_world (text : string) : @World (machine node18 true) :=
  start (machine node18 true) tt ["app"]
    (project [("tsconfig.json", File text)] []).

Definition strict_text : string := quoted "{'compilerOptions':{'strict':true}}".


Definition null_options_text : string := quoted "{'compilerOptions': null}".

Definition old_node_world : @World (machine node14 true) :=
  start (machine node14 true) tt [] (project [] []).

(** [node --version] prints something that is no version. *)
Definition odd_node_world : @World (machine "node-v18.17.0" true) :=
  start (machine "node-v18.17.0" true) tt ["app"] (project [] []).

(** [public] is a file. *)
Definition public_file_world : @World (machine node18 true) :=
  start (machine node18 true) tt ["app"]
    (project [("node_modules", Dir [("@types", Dir [])])]
             [("public", File "not a directory")]).

(** [.env.example] is a directory. *)
Definition template_dir_world : @World (machine node18 true) :=
  start (machine node18 true) tt ["app"]
    (project [] [(".env.example", Dir [])]).

(** A live [.env] next to a template that differs. *)
Definition live_env_world : @World (machine node18 true) :=
  start (machine node18 true) tt ["app"]
    (project [] [(".env", File "API_KEY=secret");
                 (".env.example", File "API_KEY=")]).

(** No [.env], a template. *)
Definition template_world : @World (machine node18 true) :=
  start (machine node18 true) tt ["app"]
    (project [] [(".env.example", File "API_KEY=")]).

End Scenario.

(** ** Notions for the further properties of the stages *)

Module Paths.

Import Fs.

(** [is_prefix p q]: the path [q] is [p] or lies below it. *)
Fixpoint is_prefix (p q : path) : bool :=
  match p, q with
  | [], _ => true
  | _ :: _, [] => false
  | a :: p', b :: q' => String.eqb a b && is_prefix p' q'
  end.

(** Neither path is the other or lies below it. *)
Definition apart (p q : path) : bool :=
  negb (is_prefix p q) && negb (is_prefix q p).

End Paths.

Import Paths.


Section Launches.

Context {O : Outside}.

(** Whatever [m] launches satisfies [P], and [m] drops nothing from the
    record of what was launched before. *)
Definition launches_only {A : Type} (P : Invocation -> bool) (m : M A) : Prop :=
  forall w, exists l,
    launched (snd (m w)) = (launched w ++ l)%list /\ forallb P l = true.

Definition command_in (allowed : list string) (i : Invocation) : bool :=
  existsb (String.eqb (command i)) allowed.

Definition version_queries : list string :=
  ["node --version"; "npm --version"].

Definition install_command : string := "npm install".

Definition build_commands : list string :=
  ["npm run type-check"; "npm run build"; "npm install @types/node --save-dev"].

(** A call of [run_command] that gave a result with exit status 0. *)
Definition ran_ok (x : Result (option CompletedProcess) * World) : bool :=
  match fst x with
  | Ret r => succeeded r
  | Raise _ => false
  end.



End Launches.

(** ** Further machines and project trees *)

Module Cases.

Import Scenario.

(** A machine on which every command completes and writes nothing: its exit
    status is the one [codes] lists for the command line, 0 when it lists
    none; [node --version] prints [node_out]. *)
Definition fixed_run (node_out : string) (codes : list (string * Z))
    (command : string) (dir : path) (capture : bool) (limit : Z) (tree : node)
    (e : unit) : RunOutcome * node * unit :=
  (completed (match dict_get codes command with
              | Some code => code
              | None => 0%Z
              end)
     (if (command =? "node --version")%string then node_out else EmptyString),
   tree, e).

Definition fixed_machine (node_out : string) (codes : list (string * Z))
  : Outside :=
  {| Env := unit;
     subprocess_run := fixed_run node_out codes;
     strftime_now := fun _ => "2024-05-01 12:00:00" |}.

(** A project whose build succeeds at once and writes [frontend/dist]. *)
Definition ready_world : @World (machine node18 true) :=
  start (machine node18 true) tt ["app"]
    (project [("node_modules", Dir [("@types", Dir [])])] [stale_public]).

(** [frontend/dist] is a file and the build command, which exits 0, leaves
    it so. *)
Definition dist_file_world : @World (machine node18 false) :=
  start (machine node18 false) tt ["app"]
    (project [("node_modules", Dir [("@types", Dir [])]);
              ("dist", File "not a directory")] [stale_public]).

(** Every build fails. *)
Definition broken_build : Outside :=
  fixed_machine node18 [("npm run build", 1%Z)].

Definition broken_build_world : @World broken_build :=
  start broken_build tt ["app"] (project [] [stale_public]).

End Cases.

(** * Proofs *)

(** ** The JSON codec: [loads] reads back what [dumps] writes *)

Module JsonFacts.

Import PyStr Dict Json.






(** *** Integers *)



































(** *** What the decoder returns is well formed *)

Lemma keys_dict_set {V} (d : list (string * V)) (k : string) (v : V) :
  keys (dict_set d k v) = if existsb (String.eqb k) (keys d) then keys d
                          else (keys d ++ [k])%list.
Proof.
  induction d as [|[k' v'] d IH]; simpl; [reflexivity|].
  rewrite (String.eqb_sym k k').
  destruct (String.eqb k' k) eqn:E; simpl; [reflexivity|].
  unfold keys in *. rewrite IH. now destruct (existsb _ _).
Qed.




End JsonFacts.


(** ** The decoder never stops for want of fuel

    A parse that succeeds with some fuel succeeds, with the same result, with
    any fuel above the number of characters it consumes; [loads] gives more
    than the length of the text. *)

Module FuelFacts.

Import PyStr Json.

Lemma skip_ws_length (s : string) : String.length (skip_ws s) <= String.length s.
Proof.
  induction s as [|c s IH]; simpl; [lia|].
  destruct (is_json_ws c); simpl; lia.
Qed.

Lemma parse_string_body_length (s k rest : string) :
  parse_string_body s = Some (k, rest) -> String.length rest < String.length s.
Proof.
  revert k rest.
  induction s as [s IH] using (well_founded_induction
    (Wf_nat.well_founded_ltof _ String.length)).
  unfold Wf_nat.ltof in IH. intros k rest.
  destruct s as [|c r]; [discriminate|]. cbn [parse_string_body].
  destruct (Ascii.eqb c dquote); [intros [= _ <-]; simpl; lia|].
  assert (T : forall x t, String.length t < String.length (String c r) ->
              cons_result x (parse_string_body t) = Some (k, rest) ->
              String.length rest < String.length (String c r)).
  { intros x t Lt. unfold cons_result.
    destruct (parse_string_body t) as [[k' rest']|] eqn:E; [|discriminate].
    intros [= _ <-]. pose proof (IH t Lt _ _ E). lia. }
  destruct (Ascii.eqb c backslash).
  - destruct r as [|e r']; [discriminate|].
    destruct (Ascii.eqb e "u").
    + destruct r' as [|h1 [|h2 [|h3 [|h4 r'']]]]; try discriminate.
      destruct (hex4 h1 h2 h3 h4) as [n|]; [|discriminate].
      destruct (n <? 256); [|discriminate].
      apply T. simpl. lia.
    + destruct (simple_escape e); [|discriminate]. apply T. simpl. lia.
  - destruct (nat_of_ascii c <? 32); [discriminate|]. apply T. simpl. lia.
Qed.

Lemma strip_prefix_length (p s rest : string) :
  strip_prefix p s = Some rest -> String.length rest <= String.length s.
Proof.
  revert s. induction p as [|a p IH]; intros s; simpl.
  - now intros [= ->].
  - destruct s as [|b s]; [discriminate|].
    destruct (Ascii.eqb a b); [|discriminate].
    intros H. apply IH in H. simpl. lia.
Qed.

Lemma parse_digits_length (s : string) :
  String.length (snd (parse_digits s)) <= String.length s.
Proof.
  induction s as [|c s IH]; simpl; [lia|].
  destruct (uint_digit c); [|simpl; lia].
  destruct (parse_digits s). simpl in *. lia.
Qed.

Lemma parse_nat_length (s rest : string) (u : Decimal.uint) :
  parse_nat s = Some (u, rest) -> String.length rest < String.length s.
Proof.
  unfold parse_nat. destruct s as [|c r]; [discriminate|].
  destruct (Ascii.eqb c "0"); [intros [= _ <-]; simpl; lia|].
  destruct (uint_digit c) eqn:D; [|discriminate].
  cbn [parse_digits]. rewrite D.
  pose proof (parse_digits_length r) as L.
  destruct (parse_digits r) as [u' rest']. intros [= _ <-]. simpl in *. lia.
Qed.

Lemma parse_int_length (s rest : string) (z : Z) :
  parse_int s = Some (z, rest) -> String.length rest < String.length s.
Proof.
  unfold parse_int. destruct s as [|c r]; [discriminate|].
  destruct (Ascii.eqb c "-").
  - destruct (parse_nat r) as [[u rest']|] eqn:E; [|discriminate].
    intros [= _ <-]. apply parse_nat_length in E. simpl. lia.
  - destruct (parse_nat (String c r)) as [[u rest']|] eqn:E; [|discriminate].
    intros [= _ <-]. now apply parse_nat_length in E.
Qed.

Lemma parse_fuel (f : nat) :
  (forall s j r, parse_value f s = Some (j, r) ->
     String.length r < String.length s /\
     forall f', String.length s - String.length r < f' ->
       parse_value f' s = Some (j, r)) /\
  (forall s acc l r, parse_elements f s acc = Some (l, r) ->
     String.length r < String.length s /\
     forall f', String.length s - String.length r < f' ->
       parse_elements f' s acc = Some (l, r)) /\
  (forall s acc d r, parse_members f s acc = Some (d, r) ->
     String.length r < String.length s /\
     forall f', String.length s - String.length r < f' ->
       parse_members f' s acc = Some (d, r)).
Proof.
  induction f as [|f (IHv & IHe & IHm)].
  - split; [|split]; intros; discriminate.
  - split; [|split].
    + intros s j r. cbn [parse_value].
      destruct s as [|c s']; [discriminate|].
      destruct (Ascii.eqb c "{") eqn:C1.
      { pose proof (skip_ws_length s') as K.
        destruct (skip_ws s') as [|c1 r1] eqn:W; [discriminate|].
        destruct (Ascii.eqb c1 "}") eqn:C2.
        - intros [= <- <-]. cbn [String.length] in *. split; [lia|].
          intros [|f'] Hf; [lia|]. cbn [parse_value]. now rewrite C1, W, C2.
        - destruct (parse_members f (String c1 r1) []) as [[d rest]|] eqn:E;
            [|discriminate].
          intros [= <- <-]. destruct (IHm _ _ _ _ E) as (L & F).
          cbn [String.length] in *. split; [lia|].
          intros [|f'] Hf; [lia|]. cbn [parse_value]. rewrite C1, W, C2.
          rewrite F; [reflexivity | cbn [String.length] in *; lia]. }
      destruct (Ascii.eqb c "[") eqn:C2.
      { pose proof (skip_ws_length s') as K.
        destruct (skip_ws s') as [|c1 r1] eqn:W; [discriminate|].
        destruct (Ascii.eqb c1 "]") eqn:C3.
        - intros [= <- <-]. cbn [String.length] in *. split; [lia|].
          intros [|f'] Hf; [lia|]. cbn [parse_value]. now rewrite C1, C2, W, C3.
        - destruct (parse_elements f (String c1 r1) []) as [[l rest]|] eqn:E;
            [|discriminate].
          intros [= <- <-]. destruct (IHe _ _ _ _ E) as (L & F).
          cbn [String.length] in *. split; [lia|].
          intros [|f'] Hf; [lia|]. cbn [parse_value]. rewrite C1, C2, W, C3.
          rewrite F; [reflexivity | cbn [String.length] in *; lia]. }
      destruct (Ascii.eqb c dquote) eqn:C3.
      { destruct (parse_string_body s') as [[str rest]|] eqn:E; [|discriminate].
        intros [= <- <-]. apply parse_string_body_length in E as L.
        cbn [String.length] in *. split; [lia|].
        intros [|f'] Hf; [lia|]. cbn [parse_value]. now rewrite C1, C2, C3, E. }
      destruct (Ascii.eqb c "n") eqn:C4.
      { destruct (strip_prefix "ull" s') as [rest|] eqn:E; [|discriminate].
        intros [= <- <-]. apply strip_prefix_length in E as L.
        cbn [String.length] in *. split; [lia|].
        intros [|f'] Hf; [lia|]. cbn [parse_value]. now rewrite C1, C2, C3, C4, E. }
      destruct (Ascii.eqb c "t") eqn:C5.
      { destruct (strip_prefix "rue" s') as [rest|] eqn:E; [|discriminate].
        intros [= <- <-]. apply strip_prefix_length in E as L.
        cbn [String.length] in *. split; [lia|].
        intros [|f'] Hf; [lia|]. cbn [parse_value].
        now rewrite C1, C2, C3, C4, C5, E. }
      destruct (Ascii.eqb c "f") eqn:C6.
      { destruct (strip_prefix "alse" s') as [rest|] eqn:E; [|discriminate].
        intros [= <- <-]. apply strip_prefix_length in E as L.
        cbn [String.length] in *. split; [lia|].
        intros [|f'] Hf; [lia|]. cbn [parse_value].
        now rewrite C1, C2, C3, C4, C5, C6, E. }
      destruct (parse_int (String c s')) as [[z rest]|] eqn:E; [|discriminate].
      intros [= <- <-]. apply parse_int_length in E as L. split; [exact L|].
      intros [|f'] Hf; [lia|]. cbn [parse_value].
      now rewrite C1, C2, C3, C4, C5, C6, E.
    + intros s acc l r. cbn [parse_elements].
      destruct (parse_value f s) as [[v rest]|] eqn:E; [|discriminate].
      destruct (IHv _ _ _ E) as (L & F).
      pose proof (skip_ws_length rest) as K.
      destruct (skip_ws rest) as [|c r0] eqn:W; [discriminate|].
      destruct (Ascii.eqb c "]") eqn:C1.
      * intros [= <- <-]. cbn [String.length] in *. split; [lia|].
        intros [|f'] Hf; [lia|]. cbn [parse_elements].
        rewrite F by lia. now rewrite W, C1.
      * destruct (Ascii.eqb c ",") eqn:C2; [|discriminate].
        intros H. destruct (IHe _ _ _ _ H) as (L2 & F2).
        pose proof (skip_ws_length r0) as K2. cbn [String.length] in *.
        split; [lia|].
        intros [|f'] Hf; [lia|]. cbn [parse_elements].
        rewrite F by lia. rewrite W, C1, C2. apply F2. lia.
    + intros s acc d r. cbn [parse_members].
      destruct s as [|q s']; [discriminate|].
      destruct (Ascii.eqb q dquote) eqn:C0; [|discriminate].
      destruct (parse_string_body s') as [[k rest]|] eqn:B; [|discriminate].
      apply parse_string_body_length in B as LB.
      pose proof (skip_ws_length rest) as K.
      destruct (skip_ws rest) as [|c1 r1] eqn:W; [discriminate|].
      destruct (Ascii.eqb c1 ":") eqn:C1; [|discriminate].
      pose proof (skip_ws_length r1) as K1.
      destruct (parse_value f (skip_ws r1)) as [[v rest2]|] eqn:E; [|discriminate].
      destruct (IHv _ _ _ E) as (L & F).
      pose proof (skip_ws_length rest2) as K2.
      destruct (skip_ws rest2) as [|c2 r2] eqn:W2; [discriminate|].
      cbn [String.length] in *.
      destruct (Ascii.eqb c2 "}") eqn:C2.
      * intros [= <- <-]. split; [lia|].
        intros [|f'] Hf; [lia|]. cbn [parse_members].
        rewrite C0, B, W, C1. rewrite F by lia. now rewrite W2, C2.
      * destruct (Ascii.eqb c2 ",") eqn:C3; [|discriminate].
        intros H. destruct (IHm _ _ _ _ H) as (L2 & F2).
        pose proof (skip_ws_length r2) as K3.
        split; [lia|].
        intros [|f'] Hf; [lia|]. cbn [parse_members].
        rewrite C0, B, W, C1. rewrite F by lia. rewrite W2, C2, C3.
        apply F2. lia.
Qed.

(** A text that some amount of fuel decodes, [loads] decodes. *)
Theorem loads_fuel_enough (f : nat) (s rest : string) (j : json) :
  parse_value f (skip_ws s) = Some (j, rest) ->
  skip_ws rest = EmptyString ->
  loads s = Some j.
Proof.
  intros E W. unfold loads.
  destruct (proj1 (parse_fuel f) _ _ _ E) as (L & F).
  pose proof (skip_ws_length s).
  rewrite F by lia. now rewrite W.
Qed.

End FuelFacts.


(** ** Insertion-ordered maps *)

Module DictFacts.

Import Dict.

Lemma dict_get_set {V} (d : list (string * V)) (k k' : string) (v : V) :
  dict_get (dict_set d k v) k' = if String.eqb k k' then Some v else dict_get d k'.
Proof.
  induction d as [|[k0 v0] d IH]; simpl.
  - destruct (String.eqb_spec k k'); reflexivity.
  - destruct (String.eqb_spec k0 k) as [->|N]; simpl.
    + destruct (String.eqb_spec k k'); reflexivity.
    + destruct (String.eqb_spec k0 k') as [->|N'].
      * destruct (String.eqb_spec k k'); [congruence | reflexivity].
      * exact IH.
Qed.



Lemma dict_get_none {V} (d : list (string * V)) (k : string) :
  ~ In k (keys d) -> dict_get d k = None.
Proof.
  induction d as [|[k0 v0] d IH]; simpl; [reflexivity|].
  intros N. destruct (String.eqb_spec k0 k); [tauto|]. apply IH. tauto.
Qed.





End DictFacts.

(** ** The file tree *)

Module FsFacts.

Import Dict Fs DictFacts.

Lemma lookup_put (p : path) (x n n' : node) :
  put p (Some x) n = Some n' -> lookup p n' = Some x.
Proof.
  revert n n'. induction p as [|c p IH]; intros n n'.
  - simpl. now intros [= ->].
  - cbn [put]. destruct n as [|es]; [discriminate|].
    destruct p as [|c' p].
    + intros [= <-]. cbn [lookup]. rewrite dict_get_set, String.eqb_refl.
      reflexivity.
    + destruct (dict_get es c) as [child|]; [|discriminate].
      destruct (put (c' :: p) (Some x) child) as [child'|] eqn:E; [|discriminate].
      intros [= <-]. cbn [lookup]. rewrite dict_get_set, String.eqb_refl.
      now apply (IH child).
Qed.



End FsFacts.


(** ** The configuration patch *)

Module PatchFacts.

Import Dict Json DictFacts JsonFacts.

Lemma overrides_nodup : NoDup (keys overrides).
Proof.
  unfold keys, overrides. cbn [map fst].
  repeat (constructor; [simpl; intuition discriminate|]). constructor.
Qed.




Lemma patch_raises (j : json) (e : exn) : patch j = Raise e -> e = AttributeError.
Proof.
  unfold patch. destruct j as [ | | | | | d]; try (now intros [= <-]).
  destruct (dict_get d "compilerOptions") as [[ | | | | | co]|];
    try (now intros [= <-]); discriminate.
Qed.




End PatchFacts.

(** ** The components *)

Section ScriptFacts.

Context {O : Outside}.

Import Dict Json Fs DictFacts FsFacts JsonFacts PatchFacts.

Lemma walk_error_os (p : path) (n : node) : is_OSError (walk_error p n) = true.
Proof.
  revert n. induction p as [|c p IH]; intros [data|es]; try reflexivity.
  simpl. destruct (dict_get es c); [apply IH | reflexivity].
Qed.

Lemma os_is_exception (e : exn) : is_OSError e = true -> is_Exception e = true.
Proof. destruct e; simpl; congruence. Qed.

(** *** [fix_typescript_config], case by case *)

Lemma fix_typescript_config_spec (w : World) :
  fix_typescript_config w =
  match lookup (resolve w tsconfig_path) (fs w) with
  | None => (Ret true, w)
  | Some (Dir _) => (Ret false, w)
  | Some (File text) =>
      match loads text with
      | None => (Ret false, w)
      | Some j =>
          match patch j with
          | Raise _ => (Ret false, w)
          | Ret j' =>
              match put (resolve w tsconfig_path) (Some (File (dumps j'))) (fs w) with
              | Some tree => (Ret true, with_fs w tree)
              | None => (Ret false, w)
              end
          end
      end
  end.
Proof.
  unfold fix_typescript_config, bind, path_exists, exists_in, try_except,
    read_text, json_load, lift, write_text, ret, raise.
  destruct (lookup (resolve w tsconfig_path) (fs w)) as [[text|es]|] eqn:L;
    cbn [is_some]; cbv beta iota; rewrite ?L; try reflexivity.
  destruct (loads text) as [j|]; [|reflexivity].
  destruct (patch j) as [j'|e] eqn:P.
  - rewrite L.
    destruct (put _ _ _) as [tree|]; [reflexivity|].
    now rewrite (os_is_exception _ (walk_error_os _ _)).
  - now rewrite (patch_raises _ _ P).
Qed.

Lemma file_text_lookup (w : World) (p : path) (text : string) :
  file_text w p = Some text <-> lookup (resolve w p) (fs w) = Some (File text).
Proof.
  unfold file_text. destruct (lookup _ _) as [[t|es]|]; split; congruence.
Qed.


End ScriptFacts.

(** ** The claims about the configuration patcher *)

Section PatcherClaims.

Context {O : Outside}.

Import Dict Json Fs DictFacts FsFacts JsonFacts PatchFacts Scenario.



End PatcherClaims.

Section PatcherCases.

Import Dict Json Fs Scenario.



(** The first run of C4 is no idle step: on the strict configuration it
    rewrites the file, and the second run leaves the rewritten file. *)
Example C4_on_strict_text :
  let w := tsconfig_world strict_text in
  let w1 := snd (fix_typescript_config w) in
  file_text w1 tsconfig_path <> file_text w tsconfig_path /\
  file_text (snd (fix_typescript_config w1)) tsconfig_path
    = file_text w1 tsconfig_path.
Proof. split; [vm_compute; discriminate | vm_compute; reflexivity]. Qed.

End PatcherCases.


(** ** The command runner and the stages *)

Section StageFacts.

Context {O : Outside}.

Import Dict Json Fs DictFacts FsFacts.

(** *** [run_command] *)

Lemma run_command_returns (cmd : string) (d : option path) (cap : bool)
    (w : World) :
  exists r, fst (run_command cmd d cap w) = Ret r.
Proof.
  unfold run_command.
  destruct (subprocess_run _ _ _ _ _ _) as [[[r| |text] tree] e];
    eexists; reflexivity.
Qed.

Lemma run_command_launched (cmd : string) (d : option path) (cap : bool)
    (w : World) :
  launched (snd (run_command cmd d cap w))
  = (launched w ++ [invocation cmd d cap])%list.
Proof.
  unfold run_command.
  destruct (subprocess_run _ _ _ _ _ _) as [[[r| |text] tree] e]; reflexivity.
Qed.

(** One step of a stage that starts with a command. *)
Lemma bind_run_command {B} (cmd : string) (d : option path) (cap : bool)
    (k : option CompletedProcess -> M B) (w : World) :
  exists r,
    fst (run_command cmd d cap w) = Ret r /\
    bind (run_command cmd d cap) k w = k r (snd (run_command cmd d cap w)).
Proof.
  destruct (run_command_returns cmd d cap w) as (r & E).
  exists r. split; [exact E|]. unfold bind.
  destruct (run_command cmd d cap w) as [res w']. simpl in E. now subst.
Qed.

(** *** Working directory *)

Lemma keeps_cwd_ret {A} (a : A) : keeps_cwd (ret a).
Proof. intros w. reflexivity. Qed.

Lemma keeps_cwd_raise {A} (e : exn) : keeps_cwd (@raise _ A e).
Proof. intros w. reflexivity. Qed.

Lemma keeps_cwd_bind {A B} (m : M A) (k : A -> M B) :
  keeps_cwd m -> (forall a, keeps_cwd (k a)) -> keeps_cwd (bind m k).
Proof.
  intros Hm Hk w. unfold bind. specialize (Hm w).
  destruct (m w) as [[a|e] w']; simpl in *; [|exact Hm].
  now rewrite Hk.
Qed.

Lemma keeps_cwd_try {A} (m : M A) (h : exn -> M A) :
  keeps_cwd m -> (forall e, keeps_cwd (h e)) -> keeps_cwd (try_except m h).
Proof.
  intros Hm Hh w. unfold try_except. specialize (Hm w).
  destruct (m w) as [[a|e] w']; simpl in *; [exact Hm|].
  destruct (is_Exception e); [now rewrite Hh | exact Hm].
Qed.

Lemma keeps_cwd_path_exists (p : path) : keeps_cwd (path_exists p).
Proof. intros w. reflexivity. Qed.

Lemma keeps_cwd_now : keeps_cwd now.
Proof. intros w. reflexivity. Qed.

Lemma keeps_cwd_lift {A} (r : Result A) : keeps_cwd (lift r).
Proof. intros w. reflexivity. Qed.

Lemma keeps_cwd_read_text (p : path) : keeps_cwd (read_text p).
Proof.
  intros w. unfold read_text. now destruct (lookup _ _) as [[|]|].
Qed.

Lemma keeps_cwd_write_text (p : path) (data : string) :
  keeps_cwd (write_text p data).
Proof.
  intros w. unfold write_text.
  destruct (lookup _ _) as [[|]|]; try reflexivity;
    now destruct (put _ _ _).
Qed.

Lemma keeps_cwd_rmtree (p : path) : keeps_cwd (rmtree p).
Proof.
  intros w. unfold rmtree.
  destruct (lookup _ _) as [[|]|]; try reflexivity. now destruct (put _ _ _).
Qed.

Lemma keeps_cwd_copytree (src dst : path) : keeps_cwd (copytree src dst).
Proof.
  intros w. unfold copytree.
  destruct (lookup _ _) as [[|]|]; try reflexivity.
  destruct (lookup _ _); try reflexivity. now destruct (put _ _ _).
Qed.

Lemma keeps_cwd_copy (src dst : path) : keeps_cwd (copy src dst).
Proof.
  intros w. unfold copy.
  apply keeps_cwd_bind; [apply keeps_cwd_read_text|].
  intros a. apply keeps_cwd_write_text.
Qed.

Lemma keeps_cwd_run_command (cmd : string) (d : option path) (cap : bool) :
  keeps_cwd (run_command cmd d cap).
Proof.
  intros w. unfold run_command.
  destruct (subprocess_run _ _ _ _ _ _) as [[[r| |text] tree] e]; reflexivity.
Qed.

Lemma keeps_cwd_json_load (text : string) : keeps_cwd (json_load text).
Proof. intros w. unfold json_load. now destruct (loads text). Qed.

Lemma keeps_cwd_existing (files : list path) : keeps_cwd (existing files).
Proof.
  induction files as [|f files IH]; simpl; [apply keeps_cwd_ret|].
  apply keeps_cwd_bind; [apply keeps_cwd_path_exists|]. intros e.
  apply keeps_cwd_bind; [exact IH|]. intros l. apply keeps_cwd_ret.
Qed.

End StageFacts.

Create HintDb cwd.

#[export] Hint Resolve keeps_cwd_ret keeps_cwd_raise keeps_cwd_path_exists
  keeps_cwd_now keeps_cwd_lift keeps_cwd_read_text keeps_cwd_write_text
  keeps_cwd_rmtree keeps_cwd_copytree keeps_cwd_copy keeps_cwd_run_command
  keeps_cwd_json_load keeps_cwd_existing : cwd.

(** Walks through a stage: a bind is split, a branch is taken both ways. *)
Ltac keeps_cwd_walk :=
  repeat first
    [ solve [auto with cwd]
    | progress cbv zeta
    | apply keeps_cwd_bind; [| intros ?]
    | apply keeps_cwd_try; [| intros ?]
    | match goal with
      | |- keeps_cwd (if ?b then _ else _) => destruct b
      | |- keeps_cwd (match ?x with _ => _ end) => destruct x
      end ].

Section StageCwd.

Context {O : Outside}.

Lemma keeps_cwd_check_system_requirements : keeps_cwd check_system_requirements.
Proof. unfold check_system_requirements. keeps_cwd_walk. Qed.

Lemma keeps_cwd_install_dependencies (skip : bool) :
  keeps_cwd (install_dependencies skip).
Proof. unfold install_dependencies. keeps_cwd_walk. Qed.

Lemma keeps_cwd_fix_typescript_config : keeps_cwd fix_typescript_config.
Proof. unfold fix_typescript_config. keeps_cwd_walk. Qed.

Lemma keeps_cwd_fix_react_components : keeps_cwd fix_react_components.
Proof. unfold fix_react_components. keeps_cwd_walk. Qed.

Lemma keeps_cwd_build_frontend : keeps_cwd build_frontend.
Proof. unfold build_frontend. keeps_cwd_walk. Qed.

Lemma keeps_cwd_test_backend : keeps_cwd test_backend.
Proof. unfold test_backend. keeps_cwd_walk. Qed.

Lemma keeps_cwd_generate_report : keeps_cwd generate_report.
Proof. unfold generate_report. keeps_cwd_walk. Qed.

Lemma keeps_cwd_run_stages (args : Args) : keeps_cwd (run_stages args).
Proof.
  unfold run_stages, sys_exit.
  pose proof keeps_cwd_check_system_requirements.
  pose proof keeps_cwd_install_dependencies.
  pose proof keeps_cwd_fix_typescript_config.
  pose proof keeps_cwd_fix_react_components.
  pose proof keeps_cwd_build_frontend.
  pose proof keeps_cwd_test_backend.
  keeps_cwd_walk.
Qed.

Lemma keeps_cwd_main_report (success : bool) : keeps_cwd (main_report success).
Proof.
  unfold main_report, sys_exit. pose proof keeps_cwd_generate_report.
  keeps_cwd_walk.
Qed.

End StageCwd.


(** ** Which exceptions a stage can let out *)

Section RaiseFacts.

Context {O : Outside}.

Import Dict Json Fs DictFacts FsFacts PatchFacts.

Variable P : exn -> bool.

Lemma raises_only_ret {A} (a : A) : raises_only P (ret a).
Proof. intros w e. discriminate. Qed.

Lemma raises_only_raise {A} (e : exn) : P e = true -> raises_only P (@raise _ A e).
Proof. intros H w e' [= <-]. exact H. Qed.

Lemma raises_only_bind {A B} (m : M A) (k : A -> M B) :
  raises_only P m -> (forall a, raises_only P (k a)) -> raises_only P (bind m k).
Proof.
  intros Hm Hk w e. unfold bind. specialize (Hm w).
  destruct (m w) as [[a|e'] w']; simpl in *.
  - apply Hk.
  - intros [= <-]. now apply Hm.
Qed.

(** A handler that catches every [Exception] leaves what it raises itself. *)
Lemma raises_only_try {A} (m : M A) (h : exn -> M A) :
  raises_only is_Exception m -> (forall e, raises_only P (h e)) ->
  raises_only P (try_except m h).
Proof.
  intros Hm Hh w e. unfold try_except. specialize (Hm w).
  destruct (m w) as [[a|e'] w']; simpl in *; [discriminate|].
  rewrite (Hm e' eq_refl). apply Hh.
Qed.

Lemma raises_only_path_exists (p : path) : raises_only P (path_exists p).
Proof. intros w e. discriminate. Qed.

Lemma raises_only_now : raises_only P now.
Proof. intros w e. discriminate. Qed.

Lemma raises_only_run_command (cmd : string) (d : option path) (cap : bool) :
  raises_only P (run_command cmd d cap).
Proof.
  intros w e. destruct (run_command_returns cmd d cap w) as (r & ->).
  discriminate.
Qed.

Lemma raises_only_existing (files : list path) : raises_only P (existing files).
Proof.
  induction files as [|f files IH]; simpl; [apply raises_only_ret|].
  apply raises_only_bind; [apply raises_only_path_exists|]. intros e.
  apply raises_only_bind; [exact IH|]. intros l. apply raises_only_ret.
Qed.

(** The file operations raise [OSError]s only. *)
Hypothesis os_in_P : forall e, is_OSError e = true -> P e = true.

Lemma raises_only_read_text (p : path) : raises_only P (read_text p).
Proof.
  intros w e. unfold read_text.
  destruct (lookup _ _) as [[|]|]; simpl; intros [= <-]; apply os_in_P;
    [reflexivity | apply walk_error_os].
Qed.

Lemma raises_only_write_text (p : path) (data : string) :
  raises_only P (write_text p data).
Proof.
  intros w e. unfold write_text.
  destruct (lookup _ _) as [[|]|]; [ | intros [= <-]; now apply os_in_P | ];
    (destruct (put _ _ _); simpl; intros [= <-]; apply os_in_P, walk_error_os).
Qed.

Lemma raises_only_rmtree (p : path) : raises_only P (rmtree p).
Proof.
  intros w e. unfold rmtree.
  destruct (lookup _ _) as [[|]|]; simpl;
    [ intros [= <-]; now apply os_in_P
    | destruct (put _ _ _); simpl; intros [= <-]; now apply os_in_P
    | intros [= <-]; apply os_in_P, walk_error_os ].
Qed.

Lemma raises_only_copytree (src dst : path) : raises_only P (copytree src dst).
Proof.
  intros w e. unfold copytree.
  destruct (lookup _ _) as [[|]|]; simpl;
    [ intros [= <-]; now apply os_in_P
    |
    | intros [= <-]; apply os_in_P, walk_error_os ].
  destruct (lookup _ _); simpl; [intros [= <-]; now apply os_in_P|].
  destruct (put _ _ _); simpl; intros [= <-]. apply os_in_P, walk_error_os.
Qed.

Lemma raises_only_copy (src dst : path) : raises_only P (copy src dst).
Proof.
  intros w. unfold copy.
  apply raises_only_bind; [apply raises_only_read_text|].
  intros a. apply raises_only_write_text.
Qed.

End RaiseFacts.

Section PatchRaises.

Context {O : Outside}.

Import PatchFacts.

Lemma raises_only_json_load (text : string) :
  raises_only is_Exception (json_load text).
Proof.
  intros w e. unfold json_load. destruct (loads text); simpl; [discriminate|].
  now intros [= <-].
Qed.

Lemma raises_only_lift_patch (j : json) :
  raises_only is_Exception (lift (patch j)).
Proof.
  intros w e. unfold lift. simpl. intros H.
  now rewrite (patch_raises _ _ H).
Qed.

End PatchRaises.

Create HintDb raises.

#[export] Hint Resolve raises_only_ret raises_only_path_exists raises_only_now
  raises_only_run_command raises_only_existing raises_only_read_text
  raises_only_write_text raises_only_rmtree raises_only_copytree
  raises_only_copy os_is_exception raises_only_json_load
  raises_only_lift_patch : raises.

Ltac raises_walk :=
  repeat first
    [ solve [auto with raises]
    | progress cbv zeta
    | apply raises_only_bind; [| intros ?]
    | apply raises_only_try; [| intros ?]
    | apply raises_only_raise; reflexivity
    | match goal with
      | |- raises_only _ (if ?b then _ else _) => destruct b
      | |- raises_only _ (match ?x with _ => _ end) => destruct x
      end ].

Section StageRaises.

Context {O : Outside}.

Import PatchFacts.

Lemma raises_check_system_requirements :
  raises_only is_ValueError check_system_requirements.
Proof. unfold check_system_requirements. raises_walk. Qed.

Lemma raises_install_dependencies (skip : bool) :
  raises_only no_exn (install_dependencies skip).
Proof. unfold install_dependencies. raises_walk. Qed.

Lemma raises_fix_react_components : raises_only no_exn fix_react_components.
Proof. unfold fix_react_components. raises_walk. Qed.

Lemma raises_fix_typescript_config : raises_only no_exn fix_typescript_config.
Proof.
  unfold fix_typescript_config. raises_walk.
Qed.

Lemma raises_build_frontend : raises_only is_OSError build_frontend.
Proof. unfold build_frontend. raises_walk. Qed.

Lemma raises_test_backend : raises_only is_OSError test_backend.
Proof. unfold test_backend. raises_walk. Qed.

Lemma raises_generate_report : raises_only is_OSError generate_report.
Proof. unfold generate_report. raises_walk. Qed.

End StageRaises.


(** ** The stages, case by case *)

Section StageCases.

Context {O : Outside}.

Import Dict Json Fs DictFacts FsFacts.

(** What [run_command] returns, from what [subprocess.run] did. *)
Lemma run_command_outcome (cmd : string) (d : option path) (cap : bool)
    (w : World) :
  let dir := match d with
             | Some p => resolve w p
             | None => cwd w
             end in
  let outcome := fst (fst (subprocess_run cmd dir cap 300%Z (fs w) (env w))) in
  fst (run_command cmd d cap w)
  = Ret (match outcome with
         | Completed r => Some r
         | TimedOut => None
         | LaunchFailed _ => None
         end).
Proof.
  unfold run_command, timeout.
  destruct (subprocess_run _ _ _ _ _ _) as [[[r| |text] tree] e]; reflexivity.
Qed.

(** The build stage once the front end is there: the two commands, then the
    deployment or the retry. *)
Lemma build_frontend_spec (w : World) :
  exists_in w frontend_path = true ->
  let w1 := snd (run_command "npm run type-check" (Some frontend_path) true w) in
  let build := run_command "npm run build" (Some frontend_path) false w1 in
  exists result,
    fst build = Ret result /\
    build_frontend w =
    if succeeded result then
      (d <- path_exists dist_path ;;
       if d then
         p <- path_exists public_path ;;
         (if p then rmtree public_path else ret tt) ;;;
         copytree dist_path public_path ;;;
         ret true
       else ret false) (snd build)
    else
      (run_command "npm install @types/node --save-dev" (Some frontend_path) true ;;;
       result <- run_command "npm run build" (Some frontend_path) false ;;
       if succeeded result then ret true else ret false) (snd build).
Proof.
  intros E w1 build. unfold build_frontend.
  unfold bind at 1. unfold path_exists at 1. rewrite E. cbn [negb].
  match goal with
  | |- context [bind (run_command ?c ?d ?cap) ?k w] =>
      destruct (bind_run_command c d cap k w) as (r0 & _ & ->)
  end.
  fold w1.
  match goal with
  | |- context [bind (run_command ?c ?d ?cap) ?k w1] =>
      destruct (bind_run_command c d cap k w1) as (r & Er & ->)
  end.
  exists r. split; [exact Er|]. fold build. now destruct (succeeded r).
Qed.

(** The retry path: the stage ends with the second build command. *)
Lemma build_frontend_retry (w : World) :
  exists_in w frontend_path = true ->
  let w1 := snd (run_command "npm run type-check" (Some frontend_path) true w) in
  let build := run_command "npm run build" (Some frontend_path) false w1 in
  let w3 := snd (run_command "npm install @types/node --save-dev"
                   (Some frontend_path) true (snd build)) in
  let again := run_command "npm run build" (Some frontend_path) false w3 in
  (exists r, fst build = Ret r /\ succeeded r = false) ->
  (exists r, fst again = Ret r /\ succeeded r = true) ->
  build_frontend w = (Ret true, snd again).
Proof.
  intros E w1 build w3 again (r & Hr & Sr) (r' & Hr' & Sr').
  destruct (build_frontend_spec w E) as (res & Hres & ->).
  fold w1 build in Hres |- *. rewrite Hr in Hres. injection Hres as <-.
  rewrite Sr.
  match goal with
  | |- context [bind (run_command ?c ?d ?cap) ?k (snd build)] =>
      destruct (bind_run_command c d cap k (snd build)) as (r1 & _ & ->)
  end.
  fold w3.
  match goal with
  | |- context [bind (run_command ?c ?d ?cap) ?k w3] =>
      destruct (bind_run_command c d cap k w3) as (r2 & Hr2 & ->)
  end.
  fold again in Hr2 |- *. rewrite Hr' in Hr2. injection Hr2 as <-.
  now rewrite Sr'.
Qed.

(** The reporter: two version queries, the report written, the verdict
    read from the file tree. *)
Lemma generate_report_spec (w : World) :
  exists text w2,
    generate_report w =
    match write_text report_path text w2 with
    | (Ret _, w3) => (Ret (exists_in w3 dist_path), w3)
    | (Raise e, w3) => (Raise e, w3)
    end.
Proof.
  unfold generate_report.
  match goal with
  | |- context [bind (run_command ?c ?d ?cap) ?k w] =>
      destruct (bind_run_command c d cap k w) as (r1 & _ & ->)
  end.
  match goal with
  | |- context [bind (run_command ?c ?d ?cap) ?k ?w'] =>
      destruct (bind_run_command c d cap k w') as (r2 & _ & ->)
  end.
  cbv beta zeta.
  unfold bind, path_exists, now. cbv beta iota.
  eexists; eexists. reflexivity.
Qed.

(** The prober on a primary tool that is absent or too old. *)
Lemma check_system_requirements_unusable (w : World) :
  node_unusable
    (fst (fst (subprocess_run "node --version" (cwd w) true 300%Z (fs w) (env w))))
  = true ->
  check_system_requirements w
  = (Ret false, snd (run_command "node --version" None true w)).
Proof.
  intros U. unfold check_system_requirements.
  match goal with
  | |- context [bind (run_command ?c ?d ?cap) ?k w] =>
      destruct (bind_run_command c d cap k w) as (r & Hr & ->)
  end.
  rewrite run_command_outcome in Hr. cbv zeta in Hr.
  destruct (fst (fst (subprocess_run _ _ _ _ _ _))) as [cp| |text];
    injection Hr as <-; try reflexivity.
  unfold node_unusable in U. unfold succeeded, stdout_stripped.
  destruct (returncode cp =? 0)%Z; [|reflexivity].
  destruct (major_of (strip (stdout cp))) as [m|]; [|discriminate].
  apply Z.ltb_lt in U.
  destruct (Z.leb_spec 16 m); [lia | reflexivity].
Qed.

(** [main], from [os.chdir] on. *)
Lemma main_unfold (script : path) (args : Args) (w : World) :
  main script args w =
  match chdir (removelast script) w with
  | (Ret _, w0) => (success <- run_stages args ;; main_report success) w0
  | (Raise e, w0) => (Raise e, w0)
  end.
Proof.
  unfold main, main_stages. unfold bind at 1 2.
  destruct (chdir (removelast script) w) as [[[]|e] w0]; [|reflexivity].
  unfold bind. reflexivity.
Qed.

(** A new entry can be written next to an entry that is there. *)
Lemma put_sibling (p : path) (a b : string) (x y n : node) :
  lookup (p ++ [a])%list n = Some x ->
  exists n', put (p ++ [b])%list (Some y) n = Some n'.
Proof.
  revert n. induction p as [|c p IH]; intros n.
  - simpl. destruct n as [|es]; [discriminate|]. intros _. eexists; reflexivity.
  - cbn [app lookup put]. destruct n as [|es]; [discriminate|].
    destruct (dict_get es c) as [child|]; [|discriminate].
    intros L. destruct (IH child L) as (child' & E). rewrite E.
    destruct (p ++ [b])%list eqn:Q; [now destruct p | eexists; reflexivity].
Qed.

End StageCases.


(** ** The claims about the command runner and the stages *)

Section StageClaims.

Context {O : Outside}.

Import Dict Json Fs DictFacts FsFacts.

(** C7, as amended.  [run_command] never raises.  It hands [subprocess.run]
    the time bound of 300 seconds and returns the completed process, whatever
    its exit status; when the time bound is exceeded, and when the launch
    fails for any other reason, it returns the same [None]: the error text is
    not in the returned value.  A caller can tell a completed command from
    one that did not complete, not a timeout from a failed launch. *)
Theorem C7_run_command_outcomes (cmd : string) (d : option path) (cap : bool)
    (w : World) :
  let dir := match d with
             | Some p => resolve w p
             | None => cwd w
             end in
  let outcome := fst (fst (subprocess_run cmd dir cap 300%Z (fs w) (env w))) in
  fst (run_command cmd d cap w)
  = Ret (match outcome with
         | Completed r => Some r
         | TimedOut => None
         | LaunchFailed _ => None
         end).
Proof. apply run_command_outcome. Qed.

(** C9.  When the front end is there, the first build command succeeds and
    [frontend/dist] is not there afterwards, the build stage returns [False]
    in the world the build command left: it has launched the type check and
    the one build, no install and no second build, and it has not touched
    the file tree, [public] included. *)
Theorem C9_missing_dist_fails_without_retry (w : World) :
  exists_in w frontend_path = true ->
  let w1 := snd (run_command "npm run type-check" (Some frontend_path) true w) in
  let build := run_command "npm run build" (Some frontend_path) false w1 in
  (exists r, fst build = Ret r /\ succeeded r = true) ->
  exists_in (snd build) dist_path = false ->
  build_frontend w = (Ret false, snd build) /\
  launched (snd (build_frontend w))
    = (launched w ++ [invocation "npm run type-check" (Some frontend_path) true;
                      invocation "npm run build" (Some frontend_path) false])%list /\
  lookup (resolve w public_path) (fs (snd (build_frontend w)))
    = lookup (resolve w public_path) (fs (snd build)).
Proof.
  intros E w1 build (r & Hr & Sr) D.
  destruct (build_frontend_spec w E) as (res & Hres & B).
  fold w1 build in Hres, B. rewrite Hr in Hres. injection Hres as <-.
  rewrite Sr in B. unfold bind at 1 in B. unfold path_exists at 1 in B.
  rewrite D in B. change (ret false (snd build)) with (Ret false, snd build) in B.
  rewrite B. cbn [snd]. split; [reflexivity|]. split; [|reflexivity].
  unfold build, w1. rewrite !run_command_launched, <- List.app_assoc.
  reflexivity.
Qed.

(** C8.  When [.env] is there, the backend-config stage returns [True] and
    leaves the world, so the file, as it was, whatever the template holds.
    The stage changes the file tree only when [.env] is absent and
    [.env.example] is there; when the template is then a file, [.env] ends
    up with its text. *)
Theorem C8_live_env_untouched (w : World) :
  (exists_in w env_path = true -> test_backend w = (Ret true, w)) /\
  (fs (snd (test_backend w)) <> fs w ->
   exists_in w env_path = false /\ exists_in w env_example_path = true) /\
  (forall data,
     exists_in w env_path = false ->
     file_text w env_example_path = Some data ->
     fst (test_backend w) = Ret true /\
     file_text (snd (test_backend w)) env_path = Some data).
Proof.
  unfold test_backend.
  destruct (exists_in w env_path) eqn:E.
  - cbv [bind path_exists ret negb andb]. rewrite E. cbv [negb andb].
    split; [reflexivity|]. split; [|discriminate].
    intros H. exfalso. now apply H.
  - destruct (exists_in w env_example_path) eqn:X.
    + split; [discriminate|]. split; [tauto|].
      intros data _ T. apply file_text_lookup in T.
      cbv [bind path_exists ret]. rewrite E. cbv [negb andb]. rewrite X.
      cbv [negb andb copy bind read_text write_text].
      unfold exists_in in E.
      destruct (lookup (resolve w env_path) (fs w)) eqn:L; [discriminate|].
      cbn [is_dir]. rewrite T, L.
      destruct (put_sibling (cwd w) ".env.example" ".env" _ (File data) _ T)
        as (tree & P).
      unfold resolve, env_path in *. rewrite P. cbn [fst snd].
      split; [reflexivity|]. apply file_text_lookup.
      apply (lookup_put _ _ _ _ P).
    + cbv [bind path_exists ret]. rewrite E. cbv [negb andb]. rewrite X.
      cbv [negb andb].
      split; [discriminate|]. split.
      * intros H. exfalso. now apply H.
      * intros data _ T. apply file_text_lookup in T.
        unfold exists_in in X. rewrite T in X. discriminate X.
Qed.

(** C5.  When the probe of the primary tool, made in the script's directory,
    does not complete, or exits with a nonzero status, or reports a major
    version below 16, the process exits with status 1 and the version query
    is the only command it has launched. *)
Theorem C5_old_node_aborts (script : path) (args : Args) (w w0 : World) :
  chdir (removelast script) w = (Ret tt, w0) ->
  node_unusable
    (fst (fst (subprocess_run "node --version" (cwd w0) true 300%Z
                 (fs w0) (env w0)))) = true ->
  exit_code (fst (main script args w)) = 1%Z /\
  launched (snd (main script args w))
    = (launched w ++ [invocation "node --version" None true])%list.
Proof.
  intros C U.
  assert (E : main script args w
              = (Raise (SystemExit 1), snd (run_command "node --version" None true w0))).
  { rewrite main_unfold, C. unfold bind at 1. unfold run_stages.
    unfold bind at 1.
    now rewrite (check_system_requirements_unusable w0 U). }
  rewrite E. cbn [fst snd exit_code].
  split; [reflexivity|]. rewrite run_command_launched.
  unfold chdir in C. destruct (lookup _ _) as [[|]|]; try discriminate.
  now injection C as <-.
Qed.

(** C2, as amended.  For a run that reaches the report stage, the exit
    status is 0 exactly when the reporter returns, which takes that
    [build-report.txt] could be written, and [frontend/dist] is there at the
    reporter's last look at the file tree.  When [frontend/dist] is not there
    at the end, the exit status is 1 and a verdict the reporter returns is
    [False], whatever [success] the stages accumulated.  The exit status is
    never anything but 0 or 1: a report that cannot be written makes it 1. *)
Theorem C2_exit_code_follows_dist (script : path) (args : Args)
    (w w1 : World) (success : bool) :
  main_stages script args w = (Ret success, w1) ->
  let r := main script args w in
  (exit_code (fst r) = 0%Z <->
   (exists b, fst (generate_report w1) = Ret b)
   /\ exists_in (snd r) dist_path = true) /\
  (exists_in (snd r) dist_path = false ->
   exit_code (fst r) = 1%Z /\
   forall b, fst (generate_report w1) = Ret b -> b = false) /\
  (exit_code (fst r) = 0%Z \/ exit_code (fst r) = 1%Z).
Proof.
  intros S.
  assert (E : main script args w =
              match generate_report w1 with
              | (Ret b, w2) => (Raise (SystemExit (if b then 0 else 1)), w2)
              | (Raise e, w2) => (Raise e, w2)
              end).
  { unfold main. unfold bind at 1. rewrite S. unfold main_report, bind.
    destruct (generate_report w1) as [[[]|e] w2]; reflexivity. }
  cbv zeta. rewrite E. clear E.
  destruct (generate_report_spec w1) as (text & w2 & G).
  pose proof (raises_generate_report w1) as R.
  rewrite G in *.
  destruct (write_text report_path text w2) as [[[]|e] w3]; cbn [fst snd] in *.
  - destruct (exists_in w3 dist_path) eqn:D; cbn [fst snd exit_code].
    + split; [split; [eauto | reflexivity] |]. split; [discriminate | now left].
    + split; [split; [discriminate | intros [_ H]; discriminate H] |].
      split; [| now right].
      intros _. split; [reflexivity|]. now intros b [= <-].
  - specialize (R e eq_refl).
    assert (X : exit_code (@Raise unit e) = 1%Z)
      by (destruct e; try reflexivity; discriminate).
    rewrite X. split; [| split; [| now right]].
    + split; [discriminate | intros [[b H] _]; discriminate H].
    + intros _. split; [reflexivity | intros b H; discriminate H].
Qed.

(** C6, as amended.  The command runner, the configuration patcher, the
    install stage and the inventory stage never raise.  The environment
    prober raises nothing but [ValueError], from the conversion of the
    version text; the build stage, the backend-config stage and the reporter
    raise nothing but [OSError]s, from [rmtree] and [copytree], from [copy],
    and from writing the report. *)
Theorem C6_what_escapes (w : World) :
  (forall cmd d cap, exists r, fst (run_command cmd d cap w) = Ret r) /\
  (exists b, fst (fix_typescript_config w) = Ret b) /\
  (forall skip, exists b, fst (install_dependencies skip w) = Ret b) /\
  (exists b, fst (fix_react_components w) = Ret b) /\
  (forall e, fst (check_system_requirements w) = Raise e -> e = ValueError) /\
  (forall e, fst (build_frontend w) = Raise e -> is_OSError e = true) /\
  (forall e, fst (test_backend w) = Raise e -> is_OSError e = true) /\
  (forall e, fst (generate_report w) = Raise e -> is_OSError e = true).
Proof.
  assert (N : forall (m : M bool), raises_only no_exn m ->
              exists b, fst (m w) = Ret b).
  { intros m H. specialize (H w). destruct (fst (m w)) as [b|e]; [eauto|].
    discriminate (H e eq_refl). }
  repeat split.
  - intros. apply run_command_returns.
  - apply N, raises_fix_typescript_config.
  - intros. apply N, raises_install_dependencies.
  - apply N, raises_fix_react_components.
  - intros e H. apply raises_check_system_requirements in H.
    destruct e; try discriminate H. reflexivity.
  - apply raises_build_frontend.
  - apply raises_test_backend.
  - apply raises_generate_report.
Qed.

(** C10.  [main] starts by moving to the directory of the script, so the
    directory it was entered from has no part in what it does: the result,
    the file tree, the outside world and the commands launched are the same
    from any starting directory.  When the script's directory is there, the
    run is the same altogether: it is the run of the stages and the report
    with that directory as working directory, which no stage leaves, so the
    run ends in it. *)
Theorem C10_runs_from_script_directory (script : path) (args : Args)
    (w : World) (dir : path) :
  let r := main script args w in
  let r' := main script args (with_cwd w dir) in
  fst r' = fst r /\ fs (snd r') = fs (snd r) /\ env (snd r') = env (snd r) /\
  launched (snd r') = launched (snd r) /\
  (is_dir (lookup (removelast script) (fs w)) = true ->
   r' = r /\
   r = (success <- run_stages args ;; main_report success)
         (with_cwd w (removelast script)) /\
   cwd (snd r) = removelast script).
Proof.
  cbv zeta. rewrite !main_unfold. unfold chdir.
  change (fs (with_cwd w dir)) with (fs w).
  destruct (lookup (removelast script) (fs w)) as [[data|es]|] eqn:L;
    cbn [is_dir fst snd]; try (repeat split; discriminate).
  repeat split.
  assert (K : keeps_cwd (success <- run_stages args ;; main_report success)).
  { apply keeps_cwd_bind; [apply keeps_cwd_run_stages|].
    intros a. apply keeps_cwd_main_report. }
  apply K.
Qed.

End StageClaims.

(** ** The claims at concrete inputs *)

Section StageCasesAtInputs.

Import Dict Json Fs Scenario.

(** C1 at a failing input.  The project has a stale [public/stale.js]; the
    first build exits with status 1, the install of [@types/node] lets the
    second build succeed and write [frontend/dist].  The build stage returns
    [True] after the four commands and [public] still holds the stale file:
    the retry path, unlike the path of a first build that succeeds, does not
    deploy. *)
Theorem C1_retry_does_not_deploy :
  let w := retry_world in
  let w1 := snd (run_command "npm run type-check" (Some frontend_path) true w) in
  let build := run_command "npm run build" (Some frontend_path) false w1 in
  let r := build_frontend w in
  option_map returncode
    (match fst build with Ret x => x | Raise _ => None end) = Some 1%Z /\
  map command (launched (snd r))
    = ["npm run type-check"; "npm run build";
       "npm install @types/node --save-dev"; "npm run build"] /\
  fst r = Ret true /\
  lookup (resolve w dist_path) (fs (snd r))
    = Some (Dir [("index.html", File "fresh build")]) /\
  lookup (resolve w public_path) (fs (snd r))
    = Some (Dir [("stale.js", File "old bundle")]).
Proof. repeat split; vm_compute; reflexivity. Qed.

(** C2 fails as stated where the report cannot be written: with
    [build-report.txt] a directory the run reaches the report stage,
    [frontend/dist] is there to the end, and the exit status is 1. *)
Lemma C2_counterexample :
  let r := main script quick blocked_report_world in
  fst (main_stages script quick blocked_report_world) = Ret true /\
  exists_in (snd r) dist_path = true /\
  fst r = Raise IsADirectoryError /\
  exit_code (fst r) = 1%Z.
Proof. repeat split; vm_compute; reflexivity. Qed.

(** C2 on a built project: the run reaches the report stage, the report
    is written, [frontend/dist] is there and the exit status is 0. *)
Lemma C2_exit_code_follows_dist_witness :
  main_stages script quick built_world
    = (Ret true, snd (main_stages script quick built_world)) /\
  exists_in (snd (main script quick built_world)) dist_path = true /\
  exit_code (fst (main script quick built_world)) = 0%Z.
Proof.
  assert (S : main_stages script quick built_world
              = (Ret true, snd (main_stages script quick built_world)))
    by (vm_compute; reflexivity).
  split; [exact S|]. split; [vm_compute; reflexivity|].
  apply (proj1 (@C2_exit_code_follows_dist (machine node18 true)
                  script quick built_world _ true S)).
  split; [exists true|]; vm_compute; reflexivity.
Defined.

(** C5 on a machine with Node 14: the run stops after the version query. *)
Lemma C5_old_node_aborts_witness :
  chdir (removelast script) old_node_world
    = (Ret tt, with_cwd old_node_world ["app"]) /\
  node_unusable (completed 0 node14) = true /\
  exit_code (fst (main script full old_node_world)) = 1%Z /\
  launched (snd (main script full old_node_world))
    = [invocation "node --version" None true].
Proof.
  split; [reflexivity|]. split; [reflexivity|].
  apply (@C5_old_node_aborts (machine node14 true) script full old_node_world
           (with_cwd old_node_world ["app"])); reflexivity.
Defined.

(** C6 fails as stated: each of the four other components lets an exception
    out.  The prober does on a version text that is no number, the build
    stage when [public] is a file, the backend-config stage when
    [.env.example] is a directory, the reporter when [build-report.txt] is
    a directory. *)
Lemma C6_counterexample :
  fst (check_system_requirements odd_node_world) = Raise ValueError /\
  fst (build_frontend public_file_world) = Raise NotADirectoryError /\
  fst (test_backend template_dir_world) = Raise IsADirectoryError /\
  fst (generate_report (with_cwd blocked_report_world ["app"]))
    = Raise IsADirectoryError.
Proof. repeat split; vm_compute; reflexivity. Qed.

(** C6 at the same inputs: what escapes is what the amended claim allows. *)
Lemma C6_what_escapes_witness :
  fst (check_system_requirements odd_node_world) = Raise ValueError /\
  is_OSError NotADirectoryError = true /\
  exists b, fst (fix_typescript_config (tsconfig_world null_options_text)) = Ret b.
Proof.
  split; [vm_compute; reflexivity|]. split.
  - apply (proj1 (proj2 (proj2 (proj2 (proj2 (proj2
             (@C6_what_escapes (machine node18 true) public_file_world)))))))
      with (e := NotADirectoryError).
    vm_compute; reflexivity.
  - apply (proj1 (proj2 (@C6_what_escapes (machine node18 true)
                           (tsconfig_world null_options_text)))).
Defined.

(** C7 fails as stated: a command that outlives the time bound and a command
    whose directory is missing give the same returned value. *)
Lemma C7_counterexample :
  let w := retry_world in
  fst (fst (subprocess_run "sleep 400" (cwd w) true 300%Z (fs w) (env w)))
    = TimedOut /\
  fst (fst (subprocess_run "npm install" (resolve w ["missing"]) false 300%Z
              (fs w) (env w)))
    = LaunchFailed "[Errno 2] No such file or directory" /\
  fst (run_command "sleep 400" None true w) = Ret None /\
  fst (run_command "npm install" (Some ["missing"]) false w) = Ret None.
Proof. repeat split; vm_compute; reflexivity. Qed.

(** C8 with a live [.env] that differs from the template, and without one. *)
Lemma C8_live_env_untouched_witness :
  exists_in live_env_world env_path = true /\
  file_text live_env_world env_example_path = Some "API_KEY=" /\
  test_backend live_env_world = (Ret true, live_env_world) /\
  file_text (snd (test_backend live_env_world)) env_path = Some "API_KEY=secret" /\
  exists_in template_world env_path = false /\
  file_text (snd (test_backend template_world)) env_path = Some "API_KEY=".
Proof.
  split; [reflexivity|]. split; [reflexivity|].
  pose proof (proj1 (@C8_live_env_untouched (machine node18 true) live_env_world)
                eq_refl) as H.
  split; [exact H|]. split; [rewrite H; reflexivity|].
  split; [reflexivity|].
  apply (proj2 (proj2 (@C8_live_env_untouched (machine node18 true) template_world))
           "API_KEY=" eq_refl eq_refl).
Defined.

(** C9 on a build command that exits 0 and writes nothing. *)
Lemma C9_missing_dist_fails_without_retry_witness :
  exists_in silent_build_world frontend_path = true /\
  fst (build_frontend silent_build_world) = Ret false /\
  map command (launched (snd (build_frontend silent_build_world)))
    = ["npm run type-check"; "npm run build"] /\
  lookup (resolve silent_build_world public_path)
    (fs (snd (build_frontend silent_build_world)))
    = Some (Dir [("stale.js", File "old bundle")]).
Proof.
  split; [reflexivity|].
  destruct (@C9_missing_dist_fails_without_retry (machine node18 false)
              silent_build_world eq_refl) as (B & L & P).
  - eexists. split; vm_compute; reflexivity.
  - vm_compute; reflexivity.
  - rewrite B. repeat split; vm_compute; reflexivity.
Defined.

(** C10 on a built project entered from [/tmp] instead of the root. *)
Lemma C10_runs_from_script_directory_witness :
  is_dir (lookup (removelast script) (fs built_world)) = true /\
  main script quick (with_cwd built_world ["tmp"]) = main script quick built_world /\
  cwd (snd (main script quick built_world)) = ["app"].
Proof.
  split; [reflexivity|].
  destruct (proj2 (proj2 (proj2 (proj2
              (@C10_runs_from_script_directory (machine node18 true)
                 script quick built_world ["tmp"])))) eq_refl)
    as (E & _ & C).
  split; [exact E | exact C].
Defined.

End StageCasesAtInputs.


(** * Further properties of the stages *)

(** ** The file tree away from the path written *)

Module FrameFacts.

Import Dict Fs Paths DictFacts FsFacts.

Lemma dict_get_del {V} (d : list (string * V)) (k k' : string) :
  dict_get (dict_del d k) k' = if String.eqb k k' then None else dict_get d k'.
Proof.
  induction d as [|[k0 v0] d IH]; simpl.
  - now destruct (String.eqb k k').
  - destruct (String.eqb_spec k0 k) as [->|N]; simpl.
    + rewrite IH. destruct (String.eqb_spec k k'); reflexivity.
    + destruct (String.eqb_spec k0 k') as [->|N'].
      * destruct (String.eqb_spec k k'); [congruence | reflexivity].
      * exact IH.
Qed.

Lemma is_prefix_refl (p : path) : is_prefix p p = true.
Proof.
  induction p as [|a p IH]; simpl; [reflexivity|].
  now rewrite String.eqb_refl.
Qed.

Lemma is_prefix_app (c p q : path) :
  is_prefix (c ++ p)%list (c ++ q)%list = is_prefix p q.
Proof.
  induction c as [|a c IH]; simpl; [reflexivity|].
  now rewrite String.eqb_refl.
Qed.

Lemma apart_app (c p q : path) : apart (c ++ p)%list (c ++ q)%list = apart p q.
Proof. unfold apart. now rewrite !is_prefix_app. Qed.

(** Writing or removing at [p] leaves every path apart from [p] as it was. *)
Lemma lookup_put_apart (p q : path) (new : option node) (n n' : node) :
  put p new n = Some n' -> apart p q = true -> lookup q n' = lookup q n.
Proof.
  unfold apart. revert q n n'. induction p as [|c p IH]; intros q n n'.
  - simpl. discriminate.
  - destruct q as [|b q]; [intros _; simpl; discriminate|].
    cbn [put is_prefix lookup]. destruct n as [|es]; [discriminate|].
    destruct (String.eqb_spec c b) as [<-|N]; cbn [andb].
    + rewrite String.eqb_refl. cbn [andb]. destruct p as [|c' p].
      * simpl. discriminate.
      * destruct (dict_get es c) as [child|] eqn:G; [|discriminate].
        destruct (put (c' :: p) new child) as [child'|] eqn:E; [|discriminate].
        intros [= <-] A. rewrite dict_get_set, String.eqb_refl.
        now apply (IH q child child').
    + intros H _. destruct p as [|c' p].
      * injection H as <-. destruct new as [x|].
        -- rewrite dict_get_set. now destruct (String.eqb_spec c b).
        -- rewrite dict_get_del. now destruct (String.eqb_spec c b).
      * destruct (dict_get es c) as [child|]; [|discriminate].
        destruct (put (c' :: p) new child) as [child'|]; [|discriminate].
        injection H as <-. rewrite dict_get_set.
        now destruct (String.eqb_spec c b).
Qed.

(** Below a file, and below nothing, there is nothing. *)
Lemma lookup_below (p q : path) (n : node) :
  is_prefix p q = true -> is_prefix q p = false ->
  match lookup p n with
  | Some (Dir _) => False
  | _ => True
  end ->
  lookup q n = None.
Proof.
  revert q n. induction p as [|c p IH]; intros q n.
  - simpl. destruct q as [|b q]; [discriminate|]. intros _ _.
    destruct n as [data|es]; [reflexivity | tauto].
  - destruct q as [|b q]; [discriminate|]. cbn [is_prefix lookup].
    destruct (String.eqb_spec c b) as [<-|N]; [|discriminate].
    rewrite String.eqb_refl. cbn [andb]. intros P Q.
    destruct n as [data|es]; [reflexivity|].
    destruct (dict_get es c) as [child|]; [|reflexivity].
    now apply IH.
Qed.

(** Writing a file where a file or nothing was leaves every path that is not
    on the way to it as it was. *)
Lemma lookup_put_file (p q : path) (data : string) (n n' : node) :
  put p (Some (File data)) n = Some n' ->
  match lookup p n with
  | Some (Dir _) => False
  | _ => True
  end ->
  is_prefix q p = false -> lookup q n' = lookup q n.
Proof.
  intros P L Q. destruct (is_prefix p q) eqn:B.
  - rewrite (lookup_below p q n B Q L).
    apply (lookup_below p q n' B Q). now rewrite (lookup_put _ _ _ _ P).
  - apply (lookup_put_apart p q _ n n' P). unfold apart. now rewrite B, Q.
Qed.

Lemma lookup_put_none (p : path) (n n' : node) :
  put p None n = Some n' -> lookup p n' = None.
Proof.
  revert n n'. induction p as [|c p IH]; intros n n'; [discriminate|].
  cbn [put]. destruct n as [|es]; [discriminate|].
  destruct p as [|c' p].
  - intros [= <-]. cbn [lookup]. now rewrite dict_get_del, String.eqb_refl.
  - destruct (dict_get es c) as [child|]; [|discriminate].
    destruct (put (c' :: p) None child) as [child'|] eqn:E; [|discriminate].
    intros [= <-]. cbn [lookup]. rewrite dict_get_set, String.eqb_refl.
    now apply (IH child).
Qed.

(** What is there, the root apart, can be removed. *)
Lemma put_none_over (p : path) (y n : node) :
  p <> [] -> lookup p n = Some y -> exists n', put p None n = Some n'.
Proof.
  revert n. induction p as [|c p IH]; intros n NE; [congruence|].
  cbn [lookup put]. destruct n as [|es]; [discriminate|].
  destruct (dict_get es c) as [child|] eqn:G; [|discriminate].
  intros L. destruct p as [|c' p]; [eexists; reflexivity|].
  destruct (IH child ltac:(discriminate) L) as (child' & ->).
  eexists; reflexivity.
Qed.

Lemma lookup_app (p q : path) (n x : node) :
  lookup (p ++ q)%list n = Some x -> exists y, lookup p n = Some y.
Proof.
  revert n. induction p as [|c p IH]; intros n;
    [intros _; eexists; reflexivity|].
  destruct n as [|es]; simpl; [discriminate|].
  destruct (dict_get es c); [apply IH | discriminate].
Qed.

End FrameFacts.


(** ** What a stage launches *)

Section LaunchFacts.

Context {O : Outside}.

Variable P : Invocation -> bool.

(** A stage that leaves the record of launches alone launches only [P]. *)
Lemma launches_nothing {A} (m : M A) :
  (forall w, launched (snd (m w)) = launched w) -> launches_only P m.
Proof.
  intros H w. exists []. now rewrite H, List.app_nil_r.
Qed.

Lemma launches_only_ret {A} (a : A) : launches_only P (ret a).
Proof. now apply launches_nothing. Qed.

Lemma launches_only_raise {A} (e : exn) : launches_only P (@raise _ A e).
Proof. now apply launches_nothing. Qed.

Lemma launches_only_lift {A} (r : Result A) : launches_only P (lift r).
Proof. now apply launches_nothing. Qed.

Lemma launches_only_path_exists (p : path) : launches_only P (path_exists p).
Proof. now apply launches_nothing. Qed.

Lemma launches_only_now : launches_only P now.
Proof. now apply launches_nothing. Qed.

Lemma launches_only_json_load (text : string) : launches_only P (json_load text).
Proof.
  apply launches_nothing. intros w. unfold json_load. now destruct (loads text).
Qed.

Lemma launches_only_read_text (p : path) : launches_only P (read_text p).
Proof.
  apply launches_nothing. intros w. unfold read_text.
  now destruct (lookup _ _) as [[|]|].
Qed.

Lemma launches_only_write_text (p : path) (data : string) :
  launches_only P (write_text p data).
Proof.
  apply launches_nothing. intros w. unfold write_text.
  destruct (lookup _ _) as [[|]|]; try reflexivity; now destruct (put _ _ _).
Qed.

Lemma launches_only_rmtree (p : path) : launches_only P (rmtree p).
Proof.
  apply launches_nothing. intros w. unfold rmtree.
  destruct (lookup _ _) as [[|]|]; try reflexivity. now destruct (put _ _ _).
Qed.

Lemma launches_only_copytree (src dst : path) : launches_only P (copytree src dst).
Proof.
  apply launches_nothing. intros w. unfold copytree.
  destruct (lookup _ _) as [[|]|]; try reflexivity.
  destruct (lookup _ _); try reflexivity. now destruct (put _ _ _).
Qed.

Lemma launches_only_chdir (p : path) : launches_only P (chdir p).
Proof.
  apply launches_nothing. intros w. unfold chdir.
  now destruct (lookup _ _) as [[|]|].
Qed.

Lemma launches_only_bind {A B} (m : M A) (k : A -> M B) :
  launches_only P m -> (forall a, launches_only P (k a)) ->
  launches_only P (bind m k).
Proof.
  intros Hm Hk w. unfold bind. destruct (Hm w) as (l & E & F).
  destruct (m w) as [[a|e] w']; simpl in *; [|eauto].
  destruct (Hk a w') as (l' & E' & F').
  exists (l ++ l')%list. rewrite E', E, List.app_assoc, forallb_app, F, F'.
  now split.
Qed.

Lemma launches_only_try {A} (m : M A) (h : exn -> M A) :
  launches_only P m -> (forall e, launches_only P (h e)) ->
  launches_only P (try_except m h).
Proof.
  intros Hm Hh w. unfold try_except. destruct (Hm w) as (l & E & F).
  destruct (m w) as [[a|e] w']; simpl in *; [eauto|].
  destruct (is_Exception e); [|simpl; eauto].
  destruct (Hh e w') as (l' & E' & F').
  exists (l ++ l')%list. rewrite E', E, List.app_assoc, forallb_app, F, F'.
  now split.
Qed.

Lemma launches_only_copy (src dst : path) : launches_only P (copy src dst).
Proof.
  intros w. unfold copy.
  apply launches_only_bind; [apply launches_only_read_text|].
  intros a. apply launches_only_write_text.
Qed.

Lemma launches_only_existing (files : list path) :
  launches_only P (existing files).
Proof.
  induction files as [|f files IH]; simpl; [apply launches_only_ret|].
  apply launches_only_bind; [apply launches_only_path_exists|]. intros e.
  apply launches_only_bind; [exact IH|]. intros l. apply launches_only_ret.
Qed.

Lemma launches_only_run_command (cmd : string) (d : option path) (cap : bool) :
  P (invocation cmd d cap) = true -> launches_only P (run_command cmd d cap).
Proof.
  intros H w. exists [invocation cmd d cap].
  rewrite run_command_launched. simpl. now rewrite H.
Qed.

End LaunchFacts.

Create HintDb launches.

#[export] Hint Resolve launches_only_ret launches_only_raise launches_only_lift
  launches_only_path_exists launches_only_now launches_only_json_load
  launches_only_read_text launches_only_write_text launches_only_rmtree
  launches_only_copytree launches_only_chdir launches_only_copy
  launches_only_existing : launches.

Ltac launches_walk :=
  repeat first
    [ solve [auto with launches]
    | progress cbv zeta
    | apply launches_only_run_command; reflexivity
    | apply launches_only_bind; [| intros ?]
    | apply launches_only_try; [| intros ?]
    | match goal with
      | |- launches_only _ (if ?b then _ else _) => destruct b
      | |- launches_only _ (match ?x with _ => _ end) => destruct x
      end ].

Section StageLaunches.

Context {O : Outside}.

Lemma install_skipped : install_dependencies true = ret true.
Proof. reflexivity. Qed.

(** X1.  In every run [main] launches nothing but its six command lines, and
    keeps the record of what was launched before. *)
Theorem main_launches_six (script : path) (args : Args) :
  launches_only
    (command_in (version_queries ++ install_command :: build_commands)%list)
    (main script args).
Proof.
  unfold main, main_stages, main_report, run_stages, sys_exit,
    check_system_requirements, install_dependencies, fix_typescript_config,
    fix_react_components, build_frontend, test_backend, generate_report.
  launches_walk.
Qed.

(** X2.  With [--fix-only], [main] launches no type check, no
    build and no install of [@types/node]: nothing but the version queries
    and [npm install]. *)
Theorem fix_only_never_builds (script : path) (args : Args) :
  fix_only args = true ->
  launches_only (command_in (version_queries ++ [install_command])%list)
    (main script args).
Proof.
  intros F.
  unfold main, main_stages, main_report, run_stages. rewrite F. cbn [negb].
  unfold sys_exit,
    check_system_requirements, install_dependencies, fix_typescript_config,
    fix_react_components, test_backend, generate_report.
  launches_walk.
Qed.

(** X3.  With [--skip-install], [main] never launches
    [npm install]; with [--fix-only] as well it launches the version queries
    and nothing else. *)
Theorem skip_install_never_installs (script : path) (args : Args) :
  skip_install args = true ->
  launches_only (command_in (version_queries ++ build_commands)%list)
    (main script args) /\
  (fix_only args = true ->
   launches_only (command_in version_queries) (main script args)).
Proof.
  intros S. split; [| intros F];
    unfold main, main_stages, main_report, run_stages; rewrite S, install_skipped;
    [| rewrite F; cbn [negb] ];
    unfold sys_exit, check_system_requirements, fix_typescript_config,
      fix_react_components, build_frontend, test_backend, generate_report;
    launches_walk.
Qed.

End StageLaunches.


(** ** The build stage *)

Section BuildFacts.

Context {O : Outside}.

Import Dict Fs Paths DictFacts FsFacts FrameFacts.

Lemma public_apart_dist (c : path) :
  apart (c ++ public_path)%list (c ++ dist_path)%list = true.
Proof. now rewrite apart_app. Qed.

Lemma public_apart_frontend (c : path) :
  apart (c ++ public_path)%list (c ++ frontend_path)%list = true.
Proof. now rewrite apart_app. Qed.

(** The deployment on a build output that is a directory. *)
Lemma deploy_directory (w : World) (es : list (string * node)) :
  lookup (resolve w dist_path) (fs w) = Some (Dir es) ->
  match lookup (resolve w public_path) (fs w) with
  | Some (File _) => False
  | _ => True
  end ->
  exists tree,
    (d <- path_exists dist_path ;;
     if d then
       p <- path_exists public_path ;;
       (if p then rmtree public_path else ret tt) ;;;
       copytree dist_path public_path ;;;
       ret true
     else ret false) w = (Ret true, with_fs w tree) /\
    lookup (resolve w public_path) tree = Some (Dir es) /\
    forall q, apart (resolve w public_path) q = true ->
              lookup q tree = lookup q (fs w).
Proof.
  intros D Pb. unfold resolve in *.
  assert (Fr : exists fr, lookup (cwd w ++ frontend_path)%list (fs w) = Some fr).
  { apply (lookup_app _ ["dist"] _ (Dir es)).
    now rewrite <- List.app_assoc. }
  destruct Fr as (fr & Fr).
  assert (Copy : forall t,
            lookup (cwd w ++ dist_path)%list t = Some (Dir es) ->
            lookup (cwd w ++ frontend_path)%list t = Some fr ->
            lookup (cwd w ++ public_path)%list t = None ->
            exists tree,
              copytree dist_path public_path (with_fs w t)
                = (Ret tt, with_fs w tree) /\
              lookup (cwd w ++ public_path)%list tree = Some (Dir es) /\
              forall q, apart (cwd w ++ public_path)%list q = true ->
                        lookup q tree = lookup q t).
  { intros t Dt Ft Pt.
    destruct (put_sibling (cwd w) "frontend" "public" fr (Dir es) t Ft)
      as (tree & E).
    exists tree. unfold copytree, resolve. cbn [fs cwd with_fs].
    rewrite Dt, Pt. unfold public_path in *. rewrite E.
    split; [reflexivity|]. split; [apply (lookup_put _ _ _ _ E)|].
    intros q A. apply (lookup_put_apart _ _ _ _ _ E A). }
  cbv [bind path_exists exists_in resolve]. rewrite D. cbn [is_some].
  destruct (lookup (cwd w ++ public_path)%list (fs w)) as [[data|ps]|] eqn:L;
    [contradiction | |]; cbn [is_some].
  - destruct (put_none_over (cwd w ++ public_path)%list (Dir ps) (fs w))
      as (t1 & R); [now destruct (cwd w) | exact L |].
    unfold rmtree, resolve. rewrite L, R.
    pose proof (lookup_put_apart _ _ _ _ _ R (public_apart_dist (cwd w))) as D1.
    pose proof (lookup_put_apart _ _ _ _ _ R (public_apart_frontend (cwd w))) as F1.
    rewrite D in D1. rewrite Fr in F1.
    destruct (Copy t1 D1 F1 (lookup_put_none _ _ _ R)) as (tree & C & Pt & Fq).
    exists tree. rewrite C. split; [reflexivity|]. split; [exact Pt|].
    intros q A. rewrite (Fq q A). apply (lookup_put_apart _ _ _ _ _ R A).
  - unfold ret.
    destruct (Copy (fs w) D Fr L) as (tree & C & Pt & Fq).
    assert (W : with_fs w (fs w) = w) by now destruct w.
    rewrite W in C. exists tree. rewrite C. now split.
Qed.

(** The deployment on a build output that is a file, over a [public] that is
    a directory: [public] is removed, then the copy fails. *)
Lemma deploy_file (w : World) (data : string) (ps : list (string * node)) :
  lookup (resolve w dist_path) (fs w) = Some (File data) ->
  lookup (resolve w public_path) (fs w) = Some (Dir ps) ->
  exists tree,
    (d <- path_exists dist_path ;;
     if d then
       p <- path_exists public_path ;;
       (if p then rmtree public_path else ret tt) ;;;
       copytree dist_path public_path ;;;
       ret true
     else ret false) w = (Raise NotADirectoryError, with_fs w tree) /\
    lookup (resolve w public_path) tree = None /\
    forall q, apart (resolve w public_path) q = true ->
              lookup q tree = lookup q (fs w).
Proof.
  intros D L. unfold resolve in *.
  cbv [bind path_exists exists_in resolve]. rewrite D. cbn [is_some].
  rewrite L. cbn [is_some].
  destruct (put_none_over (cwd w ++ public_path)%list (Dir ps) (fs w))
    as (t1 & R); [now destruct (cwd w) | exact L |].
  unfold rmtree, resolve. rewrite L, R.
  pose proof (lookup_put_apart _ _ _ _ _ R (public_apart_dist (cwd w))) as D1.
  rewrite D in D1.
  unfold copytree, resolve. cbn [fs cwd with_fs]. rewrite D1.
  exists t1. split; [reflexivity|]. split; [apply (lookup_put_none _ _ _ R)|].
  intros q A. apply (lookup_put_apart _ _ _ _ _ R A).
Qed.

Lemma deploy_launches_nothing (w : World) :
  launched (snd ((d <- path_exists dist_path ;;
     if d then
       p <- path_exists public_path ;;
       (if p then rmtree public_path else ret tt) ;;;
       copytree dist_path public_path ;;;
       ret true
     else ret false) w)) = launched w.
Proof.
  assert (L : launches_only (fun _ => false)
    (d <- path_exists dist_path ;;
     if d then
       p <- path_exists public_path ;;
       (if p then rmtree public_path else ret tt) ;;;
       copytree dist_path public_path ;;;
       ret true
     else ret false)) by launches_walk.
  destruct (L w) as ([|i l] & E & F); [| discriminate F].
  now rewrite E, List.app_nil_r.
Qed.

Lemma ran_ok_result (x : Result (option CompletedProcess) * World)
    (r : option CompletedProcess) :
  fst x = Ret r -> ran_ok x = succeeded r.
Proof. unfold ran_ok. now intros ->. Qed.

(** X8.  A first build that succeeds and leaves a directory [frontend/dist],
    with [public] absent or a directory: the build stage returns [True],
    [public] is then the very tree of [frontend/dist], whatever it held
    before, [frontend/dist] stays, and no path apart from [public] changes. *)
Theorem build_deploys_dist (w : World) (es : list (string * node)) :
  exists_in w frontend_path = true ->
  let w1 := snd (run_command "npm run type-check" (Some frontend_path) true w) in
  let build := run_command "npm run build" (Some frontend_path) false w1 in
  let w2 := snd build in
  ran_ok build = true ->
  lookup (resolve w2 dist_path) (fs w2) = Some (Dir es) ->
  match lookup (resolve w2 public_path) (fs w2) with
  | Some (File _) => False
  | _ => True
  end ->
  let r := build_frontend w in
  fst r = Ret true /\
  lookup (resolve w2 public_path) (fs (snd r)) = Some (Dir es) /\
  lookup (resolve w2 dist_path) (fs (snd r)) = Some (Dir es) /\
  (forall q, apart (resolve w2 public_path) q = true ->
             lookup q (fs (snd r)) = lookup q (fs w2)) /\
  launched (snd r) = launched w2.
Proof.
  intros E w1 build w2 Ok D Pb.
  destruct (build_frontend_spec w E) as (res & Hres & B).
  fold w1 build in Hres, B. rewrite (ran_ok_result _ _ Hres) in Ok.
  rewrite Ok in B. fold w2 in B.
  destruct (deploy_directory w2 es D Pb) as (tree & Dp & Pt & Fq).
  cbv zeta. rewrite B.
  pose proof (deploy_launches_nothing w2) as Ln.
  rewrite Dp in *. cbn [fst snd fs with_fs launched] in *.
  repeat split; try assumption.
  rewrite Fq; [exact D | apply public_apart_dist].
Qed.

(** X9.  A first build that succeeds and leaves a file at [frontend/dist],
    with [public] a directory: the build stage removes [public], then lets
    [NotADirectoryError] out of the copy; [public] is gone and no other path
    has changed. *)
Theorem build_loses_public (w : World) (data : string)
    (ps : list (string * node)) :
  exists_in w frontend_path = true ->
  let w1 := snd (run_command "npm run type-check" (Some frontend_path) true w) in
  let build := run_command "npm run build" (Some frontend_path) false w1 in
  let w2 := snd build in
  ran_ok build = true ->
  lookup (resolve w2 dist_path) (fs w2) = Some (File data) ->
  lookup (resolve w2 public_path) (fs w2) = Some (Dir ps) ->
  let r := build_frontend w in
  fst r = Raise NotADirectoryError /\
  lookup (resolve w2 public_path) (fs (snd r)) = None /\
  (forall q, apart (resolve w2 public_path) q = true ->
             lookup q (fs (snd r)) = lookup q (fs w2)).
Proof.
  intros E w1 build w2 Ok D Pb.
  destruct (build_frontend_spec w E) as (res & Hres & B).
  fold w1 build in Hres, B. rewrite (ran_ok_result _ _ Hres) in Ok.
  rewrite Ok in B. fold w2 in B.
  destruct (deploy_file w2 data ps D Pb) as (tree & Dp & Pt & Fq).
  cbv zeta. rewrite B, Dp. cbn [fst snd fs with_fs]. now repeat split.
Qed.

(** X11.  A first build that does not succeed: the build stage installs
    [@types/node], builds once more and returns whether that second build
    succeeded, in the world it left; the stage itself writes nothing, and
    there is no third build. *)
Theorem build_retries_once (w : World) :
  exists_in w frontend_path = true ->
  let w1 := snd (run_command "npm run type-check" (Some frontend_path) true w) in
  let build := run_command "npm run build" (Some frontend_path) false w1 in
  let w3 := snd (run_command "npm install @types/node --save-dev"
                   (Some frontend_path) true (snd build)) in
  let again := run_command "npm run build" (Some frontend_path) false w3 in
  ran_ok build = false ->
  build_frontend w = (Ret (ran_ok again), snd again).
Proof.
  intros E w1 build w3 again Ko.
  destruct (build_frontend_spec w E) as (res & Hres & ->).
  fold w1 build in Hres |- *. rewrite (ran_ok_result _ _ Hres) in Ko.
  rewrite Ko.
  match goal with
  | |- context [bind (run_command ?c ?d ?cap) ?k (snd build)] =>
      destruct (bind_run_command c d cap k (snd build)) as (r1 & _ & ->)
  end.
  fold w3.
  match goal with
  | |- context [bind (run_command ?c ?d ?cap) ?k w3] =>
      destruct (bind_run_command c d cap k w3) as (r2 & Hr2 & ->)
  end.
  fold again in Hr2 |- *. rewrite (ran_ok_result _ _ Hr2).
  now destruct (succeeded r2).
Qed.

(** X10.  What the build stage launches: nothing when [frontend] is not
    there (it then returns [False] at once); the type check and one build
    when that build succeeds; the type check, the build, the install of
    [@types/node] and a second build otherwise.  Never more. *)
Theorem build_frontend_commands (w : World) :
  let tc := invocation "npm run type-check" (Some frontend_path) true in
  let b := invocation "npm run build" (Some frontend_path) false in
  let i := invocation "npm install @types/node --save-dev"
             (Some frontend_path) true in
  let build := run_command "npm run build" (Some frontend_path) false
                 (snd (run_command "npm run type-check" (Some frontend_path) true w)) in
  (exists_in w frontend_path = false -> build_frontend w = (Ret false, w)) /\
  launched (snd (build_frontend w))
  = (launched w ++
     (if negb (exists_in w frontend_path) then []
      else if ran_ok build then [tc; b]
      else [tc; b; i; b]))%list.
Proof.
  cbv zeta. destruct (exists_in w frontend_path) eqn:E; cbn [negb].
  - split; [discriminate|].
    destruct (ran_ok _) eqn:Ok.
    + destruct (build_frontend_spec w E) as (res & Hres & ->).
      rewrite (ran_ok_result _ _ Hres) in Ok. rewrite Ok.
      rewrite deploy_launches_nothing, !run_command_launched.
      now rewrite <- List.app_assoc.
    + rewrite (build_retries_once w E Ok). cbn [snd].
      rewrite !run_command_launched. now rewrite <- !List.app_assoc.
  - assert (B : build_frontend w = (Ret false, w)).
    { unfold build_frontend. cbv [bind path_exists]. now rewrite E. }
    split; [now intros _|]. rewrite B. cbn [snd]. now rewrite List.app_nil_r.
Qed.

End BuildFacts.

Section BuildCases.

Import Fs Paths Scenario Cases.

(** X8 on a project with a stale [public/stale.js]: after the stage [public]
    holds the fresh [index.html] and nothing else. *)
Lemma build_deploys_dist_witness :
  exists_in ready_world frontend_path = true /\
  fst (build_frontend ready_world) = Ret true /\
  lookup (resolve ready_world public_path) (fs ready_world)
    = Some (Dir [("stale.js", File "old bundle")]) /\
  lookup (resolve ready_world public_path) (fs (snd (build_frontend ready_world)))
    = Some (Dir [("index.html", File "fresh build")]).
Proof.
  split; [reflexivity|].
  destruct (@build_deploys_dist (machine node18 true) ready_world
              [("index.html", File "fresh build")] eq_refl eq_refl eq_refl I)
    as (R & Pb & _).
  split; [exact R|]. split; [reflexivity | exact Pb].
Defined.

(** X9 on a project whose [frontend/dist] is a file. *)
Lemma build_loses_public_witness :
  exists_in dist_file_world public_path = true /\
  fst (build_frontend dist_file_world) = Raise NotADirectoryError /\
  exists_in (snd (build_frontend dist_file_world)) public_path = false.
Proof.
  split; [reflexivity|].
  destruct (@build_loses_public (machine node18 false) dist_file_world
              "not a directory" [("stale.js", File "old bundle")]
              eq_refl eq_refl eq_refl eq_refl)
    as (R & Pb & _).
  split; [exact R|]. unfold exists_in.
  change (resolve (snd (build_frontend dist_file_world)) public_path)
    with ["app"; "public"].
  change (resolve (snd (run_command "npm run build" (Some frontend_path) false
            (snd (run_command "npm run type-check" (Some frontend_path) true
               dist_file_world)))) public_path)
    with ["app"; "public"] in Pb.
  now rewrite Pb.
Defined.

(** X11 where every build fails, and where the second one succeeds. *)
Lemma build_retries_once_witness :
  fst (build_frontend broken_build_world) = Ret false /\
  map command (launched (snd (build_frontend broken_build_world)))
    = ["npm run type-check"; "npm run build";
       "npm install @types/node --save-dev"; "npm run build"] /\
  fst (build_frontend retry_world) = Ret true.
Proof.
  rewrite (@build_retries_once broken_build broken_build_world eq_refl eq_refl).
  rewrite (@build_retries_once (machine node18 true) retry_world eq_refl eq_refl).
  repeat split.
Defined.

End BuildCases.


(** ** Reading the major version *)

Module VersionFacts.

Import PyStr.










End VersionFacts.

(** ** The prober and the install stage *)

Section ProbeFacts.

Context {O : Outside}.

Import VersionFacts.





(** The install stage, outcome by outcome. *)
Lemma install_dependencies_spec (w : World) :
  let backend := run_command "npm install" None false w in
  let frontend :=
    run_command "npm install" (Some frontend_path) false (snd backend) in
  install_dependencies false w =
  if ran_ok backend then
    if exists_in (snd backend) frontend_path
    then (Ret (ran_ok frontend), snd frontend)
    else (Ret true, snd backend)
  else (Ret false, snd backend).
Proof.
  cbv zeta. unfold install_dependencies.
  match goal with
  | |- context [bind (run_command ?c ?d ?cap) ?k w] =>
      destruct (bind_run_command c d cap k w) as (r & Hr & ->)
  end.
  rewrite (ran_ok_result _ _ Hr). destruct (succeeded r); [|reflexivity].
  unfold bind at 1. unfold path_exists at 1.
  destruct (exists_in _ frontend_path); [|reflexivity].
  match goal with
  | |- context [bind (run_command ?c ?d ?cap) ?k ?w'] =>
      destruct (bind_run_command c d cap k w') as (r' & Hr' & ->)
  end.
  rewrite (ran_ok_result _ _ Hr'). now destruct (succeeded r').
Qed.

(** X4.  With [--skip-install] the install stage returns [True] and does
    nothing.  Otherwise it returns [True] exactly when the backend install
    exits 0 and the front end, if [frontend] is there once the backend is
    installed, installs with exit status 0 too: a missing [frontend] is no
    failure.  When the backend install fails the stage returns [False] and
    the front-end install is not launched. *)
Theorem install_outcome (w : World) :
  let backend := run_command "npm install" None false w in
  let frontend :=
    run_command "npm install" (Some frontend_path) false (snd backend) in
  install_dependencies true w = (Ret true, w) /\
  (fst (install_dependencies false w) = Ret true <->
   ran_ok backend = true /\
   (exists_in (snd backend) frontend_path = false \/ ran_ok frontend = true)) /\
  (ran_ok backend = false ->
   install_dependencies false w = (Ret false, snd backend) /\
   launched (snd (install_dependencies false w))
     = (launched w ++ [invocation "npm install" None false])%list).
Proof.
  cbv zeta. split; [reflexivity|]. rewrite install_dependencies_spec.
  destruct (ran_ok (run_command "npm install" None false w)).
  - split; [|discriminate].
    destruct (exists_in _ frontend_path); cbn [fst].
    + split.
      * intros [= ->]. split; [reflexivity | now right].
      * intros (_ & [H| ->]); [discriminate H | reflexivity].
    + split; [intros _; split; [reflexivity | now left] | reflexivity].
  - split; [split; [discriminate | intros (H & _); discriminate H]|].
    intros _. split; [reflexivity|]. cbn [snd]. apply run_command_launched.
Qed.

End ProbeFacts.

Section ProbeCases.

Import Scenario Cases.


End ProbeCases.


(** ** The stages that only read and write files *)

Section FileStageFacts.

Context {O : Outside}.

Import DictFacts FsFacts FrameFacts PatchFacts.

Lemma existing_filter (files : list path) (w : World) :
  existing files w = (Ret (filter (exists_in w) files), w).
Proof.
  induction files as [|f r IH]; [reflexivity|].
  cbn [existing filter]. unfold bind at 1. unfold path_exists at 1.
  unfold bind. rewrite IH. reflexivity.
Qed.

(** X12.  The inventory stage lists the component files that are there,
    does nothing with the list and returns [True]: whatever the project
    holds, the world is as it was, no file is read or written and nothing
    is launched. *)
Theorem inventory_changes_nothing (w : World) (files : list path) :
  existing files w = (Ret (filter (exists_in w) files), w) /\
  fix_react_components w = (Ret true, w).
Proof.
  split; [apply existing_filter|].
  unfold fix_react_components, bind. now rewrite existing_filter.
Qed.

(** X13.  The configuration patcher launches nothing and touches nothing
    but [frontend/tsconfig.json]: every path that is not on the way to that
    file holds what it held, a file that is absent is not created, and a
    run that returns [False] leaves the whole world as it was. *)
Theorem patcher_touches_only_tsconfig (w : World) :
  let w' := snd (fix_typescript_config w) in
  launched w' = launched w /\ env w' = env w /\
  (fst (fix_typescript_config w) = Ret false -> w' = w) /\
  (exists_in w tsconfig_path = false ->
   fix_typescript_config w = (Ret true, w)) /\
  exists_in w' tsconfig_path = exists_in w tsconfig_path /\
  (forall q, is_prefix q (resolve w tsconfig_path) = false ->
             lookup q (fs w') = lookup q (fs w)).
Proof.
  cbv zeta. rewrite fix_typescript_config_spec. unfold exists_in.
  destruct (lookup (resolve w tsconfig_path) (fs w)) as [[text|es]|] eqn:L;
    cbn [is_some fst snd];
    try (rewrite ?L; cbn [is_some]; repeat split; try reflexivity; discriminate).
  destruct (loads text) as [j|];
    [| cbn [fst snd]; rewrite ?L; repeat split; try reflexivity; discriminate].
  destruct (patch j) as [j'|e];
    [| cbn [fst snd]; rewrite ?L; repeat split; try reflexivity; discriminate].
  destruct (put _ _ _) as [tree|] eqn:E;
    [| cbn [fst snd]; rewrite ?L; repeat split; try reflexivity; discriminate].
  cbn [fst snd with_fs fs launched env cwd]. unfold resolve in *.
  cbn [cwd fs].
  split; [reflexivity|]. split; [reflexivity|]. split; [discriminate|].
  split; [discriminate|]. split.
  - change (cwd (with_fs w tree)) with (cwd w).
    now rewrite (lookup_put _ _ _ _ E).
  - intros q Q. apply (lookup_put_file _ _ _ _ _ E); [now rewrite L | exact Q].
Qed.

(** The backend-config stage, case by case. *)
Lemma test_backend_spec (w : World) :
  test_backend w =
  if exists_in w env_path then (Ret true, w)
  else
    match lookup (resolve w env_example_path) (fs w) with
    | None => (Ret true, w)
    | Some (Dir _) => (Raise IsADirectoryError, w)
    | Some (File data) =>
        match put (resolve w env_path) (Some (File data)) (fs w) with
        | Some tree => (Ret true, with_fs w tree)
        | None => (Raise (walk_error (resolve w env_path) (fs w)), w)
        end
    end.
Proof.
  unfold test_backend, bind, path_exists, ret.
  destruct (exists_in w env_path) eqn:E; cbn [negb andb]; [reflexivity|].
  unfold exists_in in *.
  destruct (lookup (resolve w env_path) (fs w)) eqn:D; [discriminate E|].
  destruct (lookup (resolve w env_example_path) (fs w)) as [[data|es]|] eqn:X;
    cbn [is_some]; [| |reflexivity];
    unfold copy, bind, read_text, write_text; rewrite D; cbn [is_dir];
    rewrite X; [|reflexivity].
  rewrite D. now destruct (put _ _ _).
Qed.

(** X15.  The backend-config stage is idempotent: run again where it
    stopped, it gives the same result and changes nothing more.  It launches
    nothing and touches nothing but [.env]: every path that is not on the
    way to [.env] holds what it held, the template among them. *)
Theorem backend_config_idempotent (w : World) :
  let w' := snd (test_backend w) in
  test_backend w' = (fst (test_backend w), w') /\
  launched w' = launched w /\ env w' = env w /\
  (forall q, is_prefix q (resolve w env_path) = false ->
             lookup q (fs w') = lookup q (fs w)) /\
  lookup (resolve w env_example_path) (fs w')
    = lookup (resolve w env_example_path) (fs w).
Proof.
  assert (F : let w' := snd (test_backend w) in
              test_backend w' = (fst (test_backend w), w') /\
              launched w' = launched w /\ env w' = env w /\
              (forall q, is_prefix q (resolve w env_path) = false ->
                         lookup q (fs w') = lookup q (fs w))).
  { cbv zeta. rewrite (test_backend_spec w).
    destruct (exists_in w env_path) eqn:E; cbn [fst snd].
    - rewrite test_backend_spec, E. repeat split; reflexivity.
    - destruct (lookup (resolve w env_example_path) (fs w))
        as [[data|es]|] eqn:X; cbn [fst snd].
      + destruct (put _ _ _) as [tree|] eqn:P; cbn [fst snd].
        * split; [|split; [reflexivity|split; [reflexivity|]]].
          -- rewrite test_backend_spec. unfold exists_in, resolve.
             cbn [with_fs fs cwd].
             unfold resolve in P. now rewrite (lookup_put _ _ _ _ P).
          -- intros q Q. cbn [with_fs fs].
             apply (lookup_put_file _ _ _ _ _ P); [|exact Q].
             unfold exists_in in E.
             now destruct (lookup (resolve w env_path) (fs w)).
        * rewrite test_backend_spec, E, X, P. repeat split; reflexivity.
      + rewrite test_backend_spec, E, X. repeat split; reflexivity.
      + rewrite test_backend_spec, E, X. repeat split; reflexivity. }
  cbv zeta in *. destruct F as (F1 & F2 & F3 & F4).
  repeat split; try assumption.
  apply F4. unfold resolve, env_path, env_example_path.
  now rewrite is_prefix_app.
Qed.

End FileStageFacts.

(** ** The order of the keys the patcher writes *)

Module KeyOrder.

Import DictFacts JsonFacts PatchFacts.

(** The keys that are not among [ks]. *)
Lemma filter_fresh_ext (ks : list string) (k : string) (l : list string) :
  ~ In k l ->
  filter (fun x => negb (existsb (String.eqb x) (ks ++ [k])%list)) l
  = filter (fun x => negb (existsb (String.eqb x) ks)) l.
Proof.
  intros N. apply filter_ext_in. intros x I.
  rewrite existsb_app. cbn [existsb]. rewrite orb_false_r.
  destruct (String.eqb_spec x k) as [->|_]; [contradiction|].
  now rewrite orb_false_r.
Qed.

(** [d.update(other)] keeps the keys of [d] where they are and appends the
    new ones in the order of [other]. *)
Lemma keys_dict_update {V} (other d : list (string * V)) :
  NoDup (keys other) ->
  keys (dict_update d other)
  = (keys d ++ filter (fun k => negb (existsb (String.eqb k) (keys d)))
                 (keys other))%list.
Proof.
  unfold dict_update. revert d.
  induction other as [|[k v] other IH]; intros d N.
  - simpl. now rewrite List.app_nil_r.
  - cbn [fold_left fst snd]. inversion N as [|? ? NI N']; subst.
    rewrite (IH _ N'), keys_dict_set. cbn [keys map fst filter].
    fold (keys d) (keys other).
    destruct (existsb (String.eqb k) (keys d)) eqn:E; cbn [negb].
    + reflexivity.
    + rewrite <- List.app_assoc. cbn [app]. f_equal. f_equal.
      now apply filter_fresh_ext.
Qed.

End KeyOrder.

Section PatchOrder.

Import DictFacts JsonFacts PatchFacts KeyOrder.

(** X14.  The patch keeps the order of the keys: the top-level keys stay
    where they are, [compilerOptions] going last when it was not there; in
    [compilerOptions] the keys that were there stay where they are, and the
    overrides that were not there follow them in the order of the override
    table. *)
Theorem patch_keeps_key_order (d d' : list (string * json)) :
  patch (JDict d) = Ret (JDict d') ->
  keys d' = (if existsb (String.eqb "compilerOptions") (keys d) then keys d
             else keys d ++ ["compilerOptions"])%list /\
  exists co co',
    (dict_get d "compilerOptions" = Some (JDict co) \/
     dict_get d "compilerOptions" = None /\ co = []) /\
    dict_get d' "compilerOptions" = Some (JDict co') /\
    keys co' = (keys co ++ filter (fun k => negb (existsb (String.eqb k) (keys co)))
                             (keys overrides))%list.
Proof.
  unfold patch.
  set (opts := match dict_get d "compilerOptions" with
               | Some v => v
               | None => JDict []
               end).
  destruct opts as [| | | | |co] eqn:C; try discriminate.
  intros [= <-]. split; [apply keys_dict_set|].
  exists co, (dict_update co overrides). split; [|split].
  - subst opts. destruct (dict_get d "compilerOptions") as [v|].
    + left. now rewrite C.
    + right. split; [reflexivity|]. now injection C as <-.
  - now rewrite dict_get_set, String.eqb_refl.
  - apply keys_dict_update, overrides_nodup.
Qed.

(** X14 on a document with [strict] and [target] under [compilerOptions],
    between two other top-level keys. *)
Lemma patch_keeps_key_order_witness :
  keys (dict_set
          [("extends", JStr "./base.json");
           ("compilerOptions", JDict [("strict", JBool true);
                                      ("target", JStr "ES2020")]);
           ("include", JList [JStr "src"])]
          "compilerOptions"
          (JDict (dict_update [("strict", JBool true); ("target", JStr "ES2020")]
                    overrides)))
  = ["extends"; "compilerOptions"; "include"].
Proof.
  exact (proj1 (patch_keeps_key_order
                  [("extends", JStr "./base.json");
                   ("compilerOptions", JDict [("strict", JBool true);
                                              ("target", JStr "ES2020")]);
                   ("include", JList [JStr "src"])]
                  _ eq_refl)).
Defined.

End PatchOrder.

(** ** The report *)

Section ReportFacts.

Context {O : Outside}.

Import FsFacts FrameFacts.

(** The reporter: the two version queries, then the text, whose last part
    follows the build directory, then the verdict. *)
Lemma generate_report_text (w : World) :
  let w2 := snd (run_command "npm --version" None true
                   (snd (run_command "node --version" None true w))) in
  exists head,
    generate_report w =
    match write_text report_path
            (head ++ (if exists_in w2 dist_path then report_ready
                      else report_incomplete)) w2 with
    | (Ret _, w3) => (Ret (exists_in w3 dist_path), w3)
    | (Raise e, w3) => (Raise e, w3)
    end.
Proof.
  cbv zeta. unfold generate_report.
  match goal with
  | |- context [bind (run_command ?c ?d ?cap) ?k w] =>
      destruct (bind_run_command c d cap k w) as (r1 & _ & ->)
  end.
  match goal with
  | |- context [bind (run_command ?c ?d ?cap) ?k ?w'] =>
      destruct (bind_run_command c d cap k w') as (r2 & _ & ->)
  end.
  cbv beta zeta.
  unfold bind, path_exists, now. cbv beta iota.
  eexists. reflexivity.
Qed.

Lemma write_text_frame (p : path) (data : string) (w : World) :
  let w' := snd (write_text p data w) in
  launched w' = launched w /\ env w' = env w /\ cwd w' = cwd w /\
  (forall q, is_prefix q (resolve w p) = false ->
             lookup q (fs w') = lookup q (fs w)) /\
  (forall e, fst (write_text p data w) = Raise e -> w' = w) /\
  (fst (write_text p data w) = Ret tt -> file_text w' p = Some data).
Proof.
  cbv zeta. unfold write_text.
  destruct (lookup (resolve w p) (fs w)) as [[old|es]|] eqn:L;
    [| repeat split; try reflexivity; discriminate |];
    (destruct (put _ _ _) as [tree|] eqn:E;
     [| repeat split; try reflexivity; discriminate]);
    cbn [fst snd with_fs fs launched env cwd];
    (split; [reflexivity|]); (split; [reflexivity|]); (split; [reflexivity|]);
    (split; [|split; [discriminate|]]).
  - intros q Q. apply (lookup_put_file _ _ _ _ _ E); [now rewrite L | exact Q].
  - intros _. apply file_text_lookup. apply (lookup_put _ _ _ _ E).
  - intros q Q. apply (lookup_put_file _ _ _ _ _ E); [now rewrite L | exact Q].
  - intros _. apply file_text_lookup. apply (lookup_put _ _ _ _ E).
Qed.

(** X16.  When the reporter returns, the report it has written closes with
    the words that go with the verdict it returns: the ready-to-run text
    when the verdict is [True], the build-incomplete text when it is
    [False].  It launches the two version queries and nothing else, and of
    the file tree those left it touches nothing but [build-report.txt]. *)
Theorem report_agrees_with_verdict (w : World) (b : bool) :
  let w2 := snd (run_command "npm --version" None true
                   (snd (run_command "node --version" None true w))) in
  let w' := snd (generate_report w) in
  fst (generate_report w) = Ret b ->
  (exists head,
     file_text w' report_path
     = Some (head ++ (if b then report_ready else report_incomplete))) /\
  b = exists_in w2 dist_path /\
  launched w' = (launched w ++ [invocation "node --version" None true;
                                invocation "npm --version" None true])%list /\
  (forall q, is_prefix q (resolve w report_path) = false ->
             lookup q (fs w') = lookup q (fs w2)).
Proof.
  cbv zeta. destruct (generate_report_text w) as (head & ->).
  set (w2 := snd (run_command "npm --version" None true
                    (snd (run_command "node --version" None true w)))).
  set (text := head ++ _).
  destruct (write_text_frame report_path text w2) as (Fl & _ & Fc & Ff & _ & Ft).
  assert (C2 : cwd w2 = cwd w).
  { unfold w2. now rewrite !keeps_cwd_run_command. }
  assert (L2 : launched w2 = (launched w ++ [invocation "node --version" None true;
                                invocation "npm --version" None true])%list).
  { unfold w2. rewrite !run_command_launched. now rewrite <- List.app_assoc. }
  destruct (write_text report_path text w2) as [[[]|e] w3]; cbn [fst snd] in *;
    [|discriminate].
  assert (D : exists_in w3 dist_path = exists_in w2 dist_path).
  { unfold exists_in, resolve. rewrite Fc. f_equal. apply Ff.
    unfold resolve, dist_path, report_path, frontend_path.
    now rewrite is_prefix_app. }
  intros [= <-]. split; [|split; [exact D | split; [congruence|]]].
  - exists head. rewrite D. now apply Ft.
  - intros q Q. apply Ff. unfold resolve in *. now rewrite C2.
Qed.

End ReportFacts.

(** ** How a run ends *)

Section EndFacts.

Context {O : Outside}.

Lemma raises_only_weaken {A} (P Q : exn -> bool) (m : M A) :
  raises_only P m -> (forall e, P e = true -> Q e = true) -> raises_only Q m.
Proof. intros H I w e E. apply I. now apply (H w). Qed.

Lemma raises_only_chdir (p : path) : raises_only is_OSError (chdir p).
Proof.
  intros w e. unfold chdir.
  destruct (lookup p (fs w)) as [[data|es]|]; try discriminate;
    intros [= <-]; [reflexivity | apply walk_error_os].
Qed.

End EndFacts.

Ltac stage_raises :=
  eapply raises_only_weaken;
  [ first [ apply raises_only_chdir
          | apply raises_check_system_requirements
          | apply raises_install_dependencies
          | apply raises_fix_typescript_config
          | apply raises_fix_react_components
          | apply raises_build_frontend
          | apply raises_test_backend
          | apply raises_generate_report ]
  | intros []; unfold no_exn; simpl; congruence ].

Ltac stages_walk :=
  repeat first
    [ progress cbv zeta
    | apply raises_only_ret
    | apply raises_only_raise; reflexivity
    | stage_raises
    | apply raises_only_bind; [| intros ?]
    | match goal with
      | |- raises_only _ (if ?b then _ else _) => destruct b
      end ].

Section EndOfRun.

Context {O : Outside}.



(** X18.  Before the report, [sys.exit] is reached in one way only: the
    stages end in [SystemExit] exactly when the directory of the script is
    there and the prober returns [False]; the status is then 1, and the run
    of [main] ends where the prober stopped, with nothing installed,
    patched or built and no report written. *)
Theorem exit_before_report (script : path) (args : Args) (w w' : World)
    (code : Z) :
  (main_stages script args w = (Raise (SystemExit code), w') <->
   code = 1%Z /\
   exists w0, chdir (removelast script) w = (Ret tt, w0) /\
              check_system_requirements w0 = (Ret false, w')) /\
  (main_stages script args w = (Raise (SystemExit code), w') ->
   main script args w = (Raise (SystemExit 1), w')).
Proof.
  assert (F : main_stages script args w = (Raise (SystemExit code), w') <->
              code = 1%Z /\
              exists w0, chdir (removelast script) w = (Ret tt, w0) /\
                         check_system_requirements w0 = (Ret false, w')).
  { unfold main_stages. cbv zeta. unfold bind at 1.
    pose proof (raises_only_chdir (removelast script) w) as C.
    destruct (chdir (removelast script) w) as [[[]|e] w0]; cbn [fst] in C.
    - unfold run_stages. cbv zeta. unfold bind at 1.
      pose proof (raises_check_system_requirements w0) as V.
      destruct (check_system_requirements w0) as [[[]|e] w1] eqn:K;
        cbn [fst negb] in *.
      + split.
        * intros H. exfalso.
          match type of H with
          | ?m w1 = _ => assert (R : raises_only is_OSError m) by stages_walk
          end.
          specialize (R w1 (SystemExit code)). rewrite H in R.
          discriminate (R eq_refl).
        * intros (_ & w0' & [= <-] & K'). rewrite K in K'. discriminate K'.
      + unfold sys_exit, raise. split.
        * intros [= <- <-]. split; [reflexivity|]. now exists w0.
        * intros (-> & w0' & [= <-] & K'). rewrite K in K'.
          now injection K' as <-.
      + split.
        * intros [= -> <-]. discriminate (V _ eq_refl).
        * intros (_ & w0' & [= <-] & K'). rewrite K in K'. discriminate K'.
    - split.
      + intros [= -> <-]. discriminate (C _ eq_refl).
      + intros (_ & w0' & [=] & _). }
  split; [exact F|].
  intros H. unfold main, bind. rewrite H.
  apply F in H. destruct H as (-> & _). reflexivity.
Qed.

End EndOfRun.

(** ** The further properties at concrete inputs *)

Section FurtherCases.

Import Scenario Cases.

(** X2 on a built project, run with [--skip-install --fix-only]. *)
Lemma fix_only_never_builds_witness :
  fix_only quick = true /\
  forallb (command_in (version_queries ++ [install_command])%list)
    (launched (snd (main script quick built_world))) = true.
Proof.
  split; [reflexivity|].
  destruct (@fix_only_never_builds (machine node18 true) script quick eq_refl
              built_world) as (l & E & F).
  rewrite E. exact F.
Defined.

(** X3 on the same run. *)
Lemma skip_install_never_installs_witness :
  skip_install quick = true /\
  forallb (command_in (version_queries ++ build_commands)%list)
    (launched (snd (main script quick built_world))) = true.
Proof.
  split; [reflexivity|].
  destruct (proj1 (@skip_install_never_installs (machine node18 true) script
                     quick eq_refl) built_world) as (l & E & F).
  rewrite E. exact F.
Defined.

(** X16 on a built project, entered from the directory of the script. *)
Lemma report_agrees_with_verdict_witness :
  fst (generate_report (with_cwd built_world ["app"])) = Ret true /\
  launched (snd (generate_report (with_cwd built_world ["app"])))
  = [invocation "node --version" None true;
     invocation "npm --version" None true].
Proof.
  assert (G : fst (generate_report (with_cwd built_world ["app"])) = Ret true)
    by (vm_compute; reflexivity).
  split; [exact G|].
  exact (proj1 (proj2 (proj2
           (@report_agrees_with_verdict (machine node18 true)
              (with_cwd built_world ["app"]) true G)))).
Defined.

End FurtherCases.
